(** * fancykeras: the periodic evaluation callback [EvaluateDataset]

    Shallow embedding of [Notebooks/00_Callbacks/00_00_evaluation.ipynb]
    (the exported class [EvaluateDataset]), of the earlier revision of
    the same class (the definitions named [part000_...]), and of the layers
    [Identity] and [SkipConnection] of the layers notebook.

    Conventions of the embedding
    - a Python [int] is a [Z]; [a % b] is [py_mod], which raises
      [ZeroDivisionError] when [b = 0] and is [Z.modulo] otherwise (both
      take the sign of the divisor);
    - a Python [dict] with [str] keys is an insertion-ordered association
      list with pairwise distinct keys ([dict_wf]); every dictionary the
      embedding builds is produced with [dict_set] from [dict_empty];
    - metric values are never inspected by the class, so their type [V] is
      a parameter;
    - a call returns or raises: [outcome]; a method of the callback also
      threads the object [self] and the number of calls made so far to the
      external [model.evaluate]: the monad [M]. *)

From Stdlib Require Import ZArith List String Bool Lia.
Import ListNotations.

Local Open Scope string_scope.
Local Open Scope list_scope.
Local Open Scope Z_scope.

Set Implicit Arguments.

(** ** Exceptions and call outcomes *)

Inductive exn : Type :=
| ZeroDivisionError
| ValueError (msg : string)
| KeyError (key : string)
| OtherError (name : string).

Inductive outcome (A : Type) : Type :=
| Returned (a : A)
| Raised (e : exn).

Arguments Returned {A} a.
Arguments Raised {A} e.

Definition obind {A B : Type} (c : outcome A) (k : A -> outcome B) : outcome B :=
  match c with
  | Returned a => k a
  | Raised e => Raised e
  end.

(** [a % b] on Python integers. *)
Definition py_mod (a b : Z) : outcome Z :=
  if b =? 0 then Raised ZeroDivisionError else Returned (a mod b).

(** ** Dictionaries with string keys *)

Definition dict (A : Type) : Type := list (string * A).

Definition dict_empty {A : Type} : dict A := [].

Definition keys {A : Type} (d : dict A) : list string := map fst d.

Definition dict_wf {A : Type} (d : dict A) : Prop := NoDup (keys d).

(** [d.get(k)] / the lookup half of [d[k]]. *)
Fixpoint dict_get {A : Type} (k : string) (d : dict A) : option A :=
  match d with
  | [] => None
  | (k', a) :: d' => if String.eqb k k' then Some a else dict_get k d'
  end.

(** [k in d.keys()]. *)
Definition dict_mem {A : Type} (k : string) (d : dict A) : bool :=
  match dict_get k d with
  | Some _ => true
  | None => false
  end.

(** [d[k] = a]: overwrite in place when [k] is present, else insert last. *)
Fixpoint dict_set {A : Type} (k : string) (a : A) (d : dict A) : dict A :=
  match d with
  | [] => [(k, a)]
  | (k', a') :: d' =>
      if String.eqb k k' then (k', a) :: d' else (k', a') :: dict_set k a d'
  end.

(** [{f(k): v for k, v in d.items()}]: the items are inserted one by one,
    in iteration order, into a dictionary that starts empty. *)
Definition dict_comprehension {A : Type} (f : string -> string) (d : dict A)
  : dict A :=
  fold_left (fun acc kv => dict_set (f (fst kv)) (snd kv) acc) d dict_empty.

(** The values a key takes along a sequence of dictionaries, in sequence
    order, taken from exactly the dictionaries that contain the key. *)
Definition column {A : Type} (k : string) (ds : list (dict A)) : list A :=
  flat_map (fun d => match dict_get k d with
                     | Some a => [a]
                     | None => []
                     end) ds.

(** The list held under a key of a table, read as empty when the key is
    missing. *)
Definition held {A : Type} (o : option (list A)) : list A :=
  match o with
  | Some l => l
  | None => []
  end.

(** What a table holds under a key once the values [c] have been appended
    to what it held before: a key with nothing to append stays missing. *)
Definition extended {A : Type} (o : option (list A)) (c : list A)
  : option (list A) :=
  match o, c with
  | None, [] => None
  | _, _ => Some (held o ++ c)
  end.

(** All dictionaries of a sequence have the same key set. *)
Definition same_key_set {A : Type} (ds : list (dict A)) : Prop :=
  forall d1 d2 k, In d1 ds -> In d2 ds -> dict_mem k d1 = dict_mem k d2.

(** ** The table transform *)

(** Body of the inner loop of [_unpack_list_dicts]:
    [if metric not in res.keys(): res[metric] = []] followed by
    [res[metric].append(value)]; the subscript raises [KeyError] on a
    missing key, and [append] extends the list held by [res]. *)
Definition unpack_item {A : Type} (res : dict (list A)) (item : string * A)
  : outcome (dict (list A)) :=
  let (metric, value) := item in
  let res1 := if negb (dict_mem metric res) then dict_set metric [] res else res in
  match dict_get metric res1 with
  | None => Raised (KeyError metric)
  | Some l => Returned (dict_set metric (l ++ [value]) res1)
  end.

(** [for metric, value in result.items(): ...] *)
Fixpoint unpack_dict {A : Type} (res : dict (list A)) (result : dict A)
  : outcome (dict (list A)) :=
  match result with
  | [] => Returned res
  | item :: rest => obind (unpack_item res item) (fun res' => unpack_dict res' rest)
  end.

(** [for result in list_of_dicts: ...] *)
Fixpoint unpack_loop {A : Type} (res : dict (list A)) (list_of_dicts : list (dict A))
  : outcome (dict (list A)) :=
  match list_of_dicts with
  | [] => Returned res
  | result :: rest => obind (unpack_dict res result) (fun res' => unpack_loop res' rest)
  end.

(** [EvaluateDataset._unpack_list_dicts] (a static method). *)
Definition _unpack_list_dicts {A : Type} (list_of_dicts : list (dict A))
  : outcome (dict (list A)) :=
  unpack_loop dict_empty list_of_dicts.

(** Keys in order of first appearance, after the keys [seen] already met. *)
Fixpoint first_seen (seen ks : list string) : list string :=
  match ks with
  | [] => seen
  | k :: ks' =>
      first_seen (if existsb (String.eqb k) seen then seen else seen ++ [k]) ks'
  end.

(** The number of values a table holds, over all its keys. *)
Definition total_values {A : Type} (t : dict (list A)) : nat :=
  list_sum (map (fun kv => List.length (snd kv)) t).

(** The number of items a sequence of dictionaries holds. *)
Definition total_items {A : Type} (ds : list (dict A)) : nat :=
  list_sum (map (fun d : dict A => List.length d) ds).

(** *** The table transform of the earlier revision

    [_unpack_list_dicts] as first written: the inner loop is the single
    statement [res[metric].append(value)], with no membership test. *)
Definition part000_unpack_item {A : Type} (res : dict (list A))
           (item : string * A) : outcome (dict (list A)) :=
  let (metric, value) := item in
  match dict_get metric res with
  | None => Raised (KeyError metric)
  | Some l => Returned (dict_set metric (l ++ [value]) res)
  end.

Fixpoint part000_unpack_dict {A : Type} (res : dict (list A)) (result : dict A)
  : outcome (dict (list A)) :=
  match result with
  | [] => Returned res
  | item :: rest =>
      obind (part000_unpack_item res item)
            (fun res' => part000_unpack_dict res' rest)
  end.

Fixpoint part000_unpack_loop {A : Type} (res : dict (list A))
         (list_of_dicts : list (dict A)) : outcome (dict (list A)) :=
  match list_of_dicts with
  | [] => Returned res
  | result :: rest =>
      obind (part000_unpack_dict res result)
            (fun res' => part000_unpack_loop res' rest)
  end.

Definition part000_unpack_list_dicts {A : Type} (list_of_dicts : list (dict A))
  : outcome (dict (list A)) :=
  part000_unpack_loop dict_empty list_of_dicts.

(** ** The skip connection layer

    The class [SkipConnection] and its helper [Identity] of the layers
    notebook.  A layer is what its call does to a tensor, and a call may
    raise; [Add] and [Concatenate] stand for Keras's merge layers
    [layers.Add()] and [layers.Concatenate()], which the class only
    selects and applies. *)

(** [Identity.call] *)
Definition Identity_call {Tensor : Type} (inputs : Tensor) : outcome Tensor :=
  Returned inputs.

(** The attributes of a [SkipConnection] object. *)
Record SkipConnection (Tensor : Type) : Type := mkSkipConnection {
  main_path : Tensor -> outcome Tensor;
  skip_path : Tensor -> outcome Tensor;
  combine : list Tensor -> outcome Tensor
}.

(** [SkipConnection.__init__] *)
Definition SkipConnection_init {Tensor : Type}
           (Add Concatenate : list Tensor -> outcome Tensor)
           (main_path : Tensor -> outcome Tensor)
           (skip_path : option (Tensor -> outcome Tensor))
           (how : string) : SkipConnection Tensor :=
  {| main_path := main_path;
     skip_path := match skip_path with
                  | None => Identity_call
                  | Some path => path
                  end;
     combine := if String.eqb how "add" then Add else Concatenate |}.

(** [SkipConnection.call] *)
Definition SkipConnection_call {Tensor : Type} (self : SkipConnection Tensor)
           (inputs : Tensor) : outcome Tensor :=
  obind (main_path self inputs) (fun main =>
  obind (skip_path self inputs) (fun skip =>
  combine self [main; skip])).

(** Merge layers on vectors, for the examples: the sum needs equal
    lengths, the concatenation puts one vector after the other. *)
Definition vector_Add (xs : list (list Z)) : outcome (list Z) :=
  match xs with
  | [a; b] =>
      if (List.length a =? List.length b)%nat
      then Returned (map (fun p => fst p + snd p) (List.combine a b))
      else Raised (ValueError "Inputs have incompatible shapes.")
  | _ => Raised (ValueError "A merge layer should be called on two inputs.")
  end.

Definition vector_Concatenate (xs : list (list Z)) : outcome (list Z) :=
  Returned (List.concat xs).

(** ** Concrete collaborators used by the examples *)

(** A model whose [evaluate] always reports one metric. *)
Definition steady_model (_ : unit) (_ : nat) : outcome (dict Z) :=
  Returned [("loss", 7)].

(** A model whose [evaluate] always fails. *)
Definition broken_model (_ : unit) (_ : nat) : outcome (dict Z) :=
  Raised (OtherError "EvaluationFailure").

(** The model of the notebook's run: the [n]-th call of [evaluate] reports
    the [n]-th value of a list under the single metric ["loss"]. *)
Definition scripted_model {D A : Type} (vals : list A) (_ : D) (n : nat)
  : outcome (dict A) :=
  match nth_error vals n with
  | Some v => Returned [("loss", v)]
  | None => Raised (OtherError "EvaluationFailure")
  end.

(** A model whose first evaluation fails and whose later ones succeed. *)
Definition flaky_model (_ : unit) (n : nat) : outcome (dict Z) :=
  match n with
  | O => Raised (OtherError "EvaluationFailure")
  | S _ => Returned [("loss", 7)]
  end.

(** Two cycles that report different metric sets. *)
Definition ragged_results : list (dict Z) :=
  [ [("loss", 1)]; [("loss", 2); ("acc", 3)] ].

(** ** The callback *)

Section Evaluation.

(** Type of metric values (Python floats, never inspected). *)
Variable V : Type.
(** Type of dataset handles. *)
Variable Dataset : Type.
(** [isinstance(dataset, tf.data.Dataset)]. *)
Variable isinstance_tf_Dataset : Dataset -> bool.
(** [self.model.evaluate(dataset, verbose=0, return_dict=True)]: the
    outcome of the call, given how many calls were made before it. *)
Variable model_evaluate : Dataset -> nat -> outcome (dict V).

(** The attributes of an [EvaluateDataset] object. *)
Record EvaluateDataset : Type := mkEvaluateDataset {
  dataset : Dataset;
  freq_epochs : option Z;
  freq_batches : option Z;
  append : string;
  batches_seen : Z;
  epochs_seen : Z;
  _results_batches : list (dict V);
  _results_epochs : list (dict V)
}.

(** Number of calls of [model.evaluate] made so far. *)
Definition World : Type := nat.

(** A method body: it reads and updates [self], may call the model, and
    returns or raises.  Updates made before a raise persist. *)
Definition M (A : Type) : Type :=
  EvaluateDataset -> World -> outcome A * EvaluateDataset * World.

Definition ret {A : Type} (a : A) : M A := fun self w => (Returned a, self, w).

Definition raise {A : Type} (e : exn) : M A := fun self w => (Raised e, self, w).

Definition bind {A B : Type} (c : M A) (k : A -> M B) : M B :=
  fun self w =>
    match c self w with
    | (Returned a, self', w') => k a self' w'
    | (Raised e, self', w') => (Raised e, self', w')
    end.

Definition get_self : M EvaluateDataset := fun self w => (Returned self, self, w).

Definition set_self (f : EvaluateDataset -> EvaluateDataset) : M unit :=
  fun self w => (Returned tt, f self, w).

Definition lift {A : Type} (o : outcome A) : M A := fun self w => (o, self, w).

(** The external call: one more call has been made, whatever it did. *)
Definition call_model_evaluate (ds : Dataset) : M (dict V) :=
  fun self w => (model_evaluate ds w, self, S w).

Notation "x <- c ;; k" := (bind c (fun x => k))
  (at level 61, c at next level, right associativity).
Notation "c ;;; k" := (bind c (fun _ => k))
  (at level 61, right associativity).

(** [EvaluateDataset._convert_to_dataset] *)
Definition _convert_to_dataset (ds : Dataset) : Dataset := ds.

(** [EvaluateDataset.__init__] *)
Definition __init__ (ds : Dataset) (freq_epochs freq_batches : option Z)
           (append : string) : outcome EvaluateDataset :=
  Returned {|
    dataset := if isinstance_tf_Dataset ds then ds else _convert_to_dataset ds;
    freq_epochs := freq_epochs;
    freq_batches := freq_batches;
    append := append;
    batches_seen := 0;
    epochs_seen := 0;
    _results_batches := [];
    _results_epochs := []
  |}.

(** [EvaluateDataset.evaluate] *)
Definition evaluate : M (dict V) :=
  self <- get_self ;;
  raw <- call_model_evaluate (dataset self) ;;
  ret (dict_comprehension (fun name => name ++ append self)%string raw).

Definition append_results_batches (results : dict V) (self : EvaluateDataset)
  : EvaluateDataset :=
  {| dataset := dataset self;
     freq_epochs := freq_epochs self;
     freq_batches := freq_batches self;
     append := append self;
     batches_seen := batches_seen self;
     epochs_seen := epochs_seen self;
     _results_batches := _results_batches self ++ [results];
     _results_epochs := _results_epochs self |}.

Definition append_results_epochs (results : dict V) (self : EvaluateDataset)
  : EvaluateDataset :=
  {| dataset := dataset self;
     freq_epochs := freq_epochs self;
     freq_batches := freq_batches self;
     append := append self;
     batches_seen := batches_seen self;
     epochs_seen := epochs_seen self;
     _results_batches := _results_batches self;
     _results_epochs := _results_epochs self ++ [results] |}.

Definition incr_batches_seen (self : EvaluateDataset) : EvaluateDataset :=
  {| dataset := dataset self;
     freq_epochs := freq_epochs self;
     freq_batches := freq_batches self;
     append := append self;
     batches_seen := batches_seen self + 1;
     epochs_seen := epochs_seen self;
     _results_batches := _results_batches self;
     _results_epochs := _results_epochs self |}.

Definition incr_epochs_seen (self : EvaluateDataset) : EvaluateDataset :=
  {| dataset := dataset self;
     freq_epochs := freq_epochs self;
     freq_batches := freq_batches self;
     append := append self;
     batches_seen := batches_seen self;
     epochs_seen := epochs_seen self + 1;
     _results_batches := _results_batches self;
     _results_epochs := _results_epochs self |}.

(** [EvaluateDataset.on_train_batch_end] *)
Definition on_train_batch_end (batch : Z) (logs : option (dict V)) : M unit :=
  self <- get_self ;;
  match freq_batches self with
  | None => ret tt
  | Some f =>
      r <- lift (py_mod (batches_seen self) f) ;;
      (if r =? 0
       then results <- evaluate ;; set_self (append_results_batches results)
       else ret tt) ;;;
      set_self incr_batches_seen
  end.

(** [EvaluateDataset.on_epoch_end] *)
Definition on_epoch_end (batch : Z) (logs : option (dict V)) : M unit :=
  self <- get_self ;;
  match freq_epochs self with
  | None => ret tt
  | Some f =>
      r <- lift (py_mod (epochs_seen self) f) ;;
      (if r =? 0
       then results <- evaluate ;; set_self (append_results_epochs results)
       else ret tt) ;;;
      set_self incr_epochs_seen
  end.

(** [EvaluateDataset.results_batches] (a property) *)
Definition results_batches (self : EvaluateDataset) : outcome (dict (list V)) :=
  if (List.length (_results_batches self) =? 0)%nat
  then Raised (ValueError "No values stored yet.")
  else _unpack_list_dicts (_results_batches self).

(** [EvaluateDataset.results_epochs] (a property) *)
Definition results_epochs (self : EvaluateDataset) : outcome (dict (list V)) :=
  if (List.length (_results_epochs self) =? 0)%nat
  then Raised (ValueError "No values stored yet.")
  else _unpack_list_dicts (_results_epochs self).

(** The training loop delivers the notifications of one axis in order,
    each with the two arguments of the hook (the ordinal and the training
    logs); an exception that leaves the hook ends the run. *)
Fixpoint run_hook (hook : Z -> option (dict V) -> M unit)
         (args : list (Z * option (dict V))) : M unit :=
  match args with
  | [] => ret tt
  | (ordinal, logs) :: rest => hook ordinal logs ;;; run_hook hook rest
  end.

(** *** The earlier revision of the class

    Its object has no [append] attribute, [__init__] takes both
    frequencies without a default, and [evaluate] hands back what the
    model reports; the two hooks are written as in the current one. *)

(** [EvaluateDataset.evaluate], earlier revision *)
Definition part000_evaluate : M (dict V) :=
  self <- get_self ;;
  call_model_evaluate (dataset self).

(** [EvaluateDataset.on_train_batch_end], earlier revision *)
Definition part000_on_train_batch_end (batch : Z) (logs : option (dict V))
  : M unit :=
  self <- get_self ;;
  match freq_batches self with
  | None => ret tt
  | Some f =>
      r <- lift (py_mod (batches_seen self) f) ;;
      (if r =? 0
       then results <- part000_evaluate ;; set_self (append_results_batches results)
       else ret tt) ;;;
      set_self incr_batches_seen
  end.

(** [EvaluateDataset.on_epoch_end], earlier revision *)
Definition part000_on_epoch_end (batch : Z) (logs : option (dict V))
  : M unit :=
  self <- get_self ;;
  match freq_epochs self with
  | None => ret tt
  | Some f =>
      r <- lift (py_mod (epochs_seen self) f) ;;
      (if r =? 0
       then results <- part000_evaluate ;; set_self (append_results_epochs results)
       else ret tt) ;;;
      set_self incr_epochs_seen
  end.

(** Projections of the result of a method. *)
Definition result_of {A : Type} (r : outcome A * EvaluateDataset * World)
  : outcome A := fst (fst r).
Definition self_of {A : Type} (r : outcome A * EvaluateDataset * World)
  : EvaluateDataset := snd (fst r).
Definition calls_of {A : Type} (r : outcome A * EvaluateDataset * World)
  : World := snd r.

(** The number of evaluation cycles that [B] notifications fire on an axis
    of frequency [F]: [floor((B-1)/F) + 1], and none when [B = 0]. *)
Definition cycles (F : Z) (B : nat) : Z :=
  if (B =? 0)%nat then 0 else (Z.of_nat B - 1) / F + 1.

(** The schedule of one axis, for a run of [hook] over [args] from
    [self0]: the run returns; the counter [seen] ends at the number of
    notifications and [results] holds [cycles F B] entries; and the
    notification of index [i] finds the counter at [i], and calls the
    model once and appends one entry when [i mod F = 0], and neither calls
    the model nor touches [results] otherwise. *)
Definition fires_every (F : Z) (hook : Z -> option (dict V) -> M unit)
           (seen : EvaluateDataset -> Z)
           (results : EvaluateDataset -> list (dict V))
           (self0 : EvaluateDataset) (w0 : World)
           (args : list (Z * option (dict V))) : Prop :=
  let final := run_hook hook args self0 w0 in
  result_of final = Returned tt /\
  seen (self_of final) = Z.of_nat (List.length args) /\
  Z.of_nat (List.length (results (self_of final))) = cycles F (List.length args) /\
  forall i : nat, (i < List.length args)%nat ->
    let before := run_hook hook (firstn i args) self0 w0 in
    let after := run_hook hook (firstn (S i) args) self0 w0 in
    seen (self_of before) = Z.of_nat i /\
    if Z.of_nat i mod F =? 0
    then (exists d, results (self_of after) = results (self_of before) ++ [d]) /\
         calls_of after = S (calls_of before)
    else results (self_of after) = results (self_of before) /\
         calls_of after = calls_of before.

(** *** Runs that mix the two axes *)

(** The notifications the training loop delivers; each carries the two
    arguments of the hook. *)
Inductive notification : Type :=
| BatchEnd (batch : Z) (logs : option (dict V))
| EpochEnd (epoch : Z) (logs : option (dict V)).

Definition deliver (n : notification) : M unit :=
  match n with
  | BatchEnd batch logs => on_train_batch_end batch logs
  | EpochEnd epoch logs => on_epoch_end epoch logs
  end.

(** Notifications delivered in order; an exception that leaves a hook ends
    the run. *)
Fixpoint run (ns : list notification) : M unit :=
  match ns with
  | [] => ret tt
  | n :: ns' => deliver n ;;; run ns'
  end.

Definition is_batch_end (n : notification) : bool :=
  match n with
  | BatchEnd _ _ => true
  | EpochEnd _ _ => false
  end.

Definition is_epoch_end (n : notification) : bool :=
  match n with
  | BatchEnd _ _ => false
  | EpochEnd _ _ => true
  end.

Definition batch_ends (ns : list notification) : nat :=
  List.length (filter is_batch_end ns).

Definition epoch_ends (ns : list notification) : nat :=
  List.length (filter is_epoch_end ns).


(** How many entries an axis has stored by then. *)
Definition entries_after (freq : option Z) (n : nat) : Z :=
  match freq with
  | Some F => cycles (Z.abs F) n
  | None => 0
  end.

(** The counter of an axis determines how many entries the axis has
    stored; on an axis that is disabled or has frequency 0 nothing ever
    moves. *)
Definition axis_consistent (freq : option Z) (seen : Z)
           (results : list (dict V)) : Prop :=
  0 <= seen /\
  Z.of_nat (List.length results) = entries_after freq (Z.to_nat seen) /\
  (freq = None \/ freq = Some 0 -> seen = 0).

Definition consistent (self : EvaluateDataset) : Prop :=
  axis_consistent (freq_batches self) (batches_seen self) (_results_batches self) /\
  axis_consistent (freq_epochs self) (epochs_seen self) (_results_epochs self).

(** [self'] is [self] with [added_b] and [added_e] appended to the two
    result sequences: the configuration is the same and the counters have
    not gone back. *)
Definition grown (self self' : EvaluateDataset) (added_b added_e : list (dict V))
  : Prop :=
  dataset self' = dataset self /\
  freq_epochs self' = freq_epochs self /\
  freq_batches self' = freq_batches self /\
  append self' = append self /\
  _results_batches self' = _results_batches self ++ added_b /\
  _results_epochs self' = _results_epochs self ++ added_e /\
  batches_seen self <= batches_seen self' /\
  epochs_seen self <= epochs_seen self'.

(** What the [n]-th call of the model reports (nothing when it fails). *)
Definition raw_at (ds : Dataset) (n : nat) : dict V :=
  match model_evaluate ds n with
  | Returned raw => raw
  | Raised _ => dict_empty
  end.

(** The dictionary [evaluate] makes of a report. *)
Definition tagged (sfx : string) (raw : dict V) : dict V :=
  dict_comprehension (fun name => name ++ sfx)%string raw.

(** What an axis has stored, and the table its accessor gives, are the
    history of the reports [raws] of the model: the stored sequence is the
    reports in order, each with its keys suffixed; the table maps each
    suffixed metric name to the values reported for that metric, in order;
    and the table has no key that is not a suffixed name. *)
Definition history_of (sfx : string) (raws stored : list (dict V))
           (table : outcome (dict (list V))) : Prop :=
  stored = map (tagged sfx) raws /\
  exists t,
    table = Returned t /\
    (forall k, dict_get (k ++ sfx)%string t =
               if existsb (dict_mem k) raws then Some (column k raws) else None) /\
    (forall key, dict_mem key t = true -> exists k, key = (k ++ sfx)%string).

(** ** Strings and dictionaries *)

Lemma string_length_append (a b : string) :
  String.length (a ++ b) = (String.length a + String.length b)%nat.
Proof.
  induction a as [|c a IH]; simpl; [reflexivity | now rewrite IH].
Qed.

(** Appending a fixed suffix is injective. *)
Lemma append_suffix_inj (sfx a b : string) :
  (a ++ sfx = b ++ sfx)%string -> a = b.
Proof.
  revert b; induction a as [|c a IH]; intros [|c' b] H; simpl in H.
  - reflexivity.
  - apply (f_equal String.length) in H; simpl in H.
    rewrite string_length_append in H; lia.
  - apply (f_equal String.length) in H; simpl in H.
    rewrite string_length_append in H; lia.
  - injection H as Hc Hr. subst c'. f_equal. now apply IH.
Qed.

Lemma dict_get_none_iff {A : Type} (k : string) (d : dict A) :
  dict_get k d = None <-> ~ In k (keys d).
Proof.
  induction d as [|[k' a] d IH]; simpl.
  - tauto.
  - destruct (String.eqb_spec k k') as [->|Hne].
    + split; [discriminate | intros H; exfalso; apply H; now left].
    + rewrite IH. split; intros H; [intros [E|I]; [congruence | tauto] | tauto].
Qed.

Lemma dict_mem_true_iff {A : Type} (k : string) (d : dict A) :
  dict_mem k d = true <-> In k (keys d).
Proof.
  unfold dict_mem. destruct (dict_get k d) eqn:E.
  - split; [intros _ | reflexivity].
    destruct (in_dec string_dec k (keys d)) as [I|N]; [exact I|].
    apply dict_get_none_iff in N. congruence.
  - apply dict_get_none_iff in E. split; [discriminate | tauto].
Qed.

Lemma dict_get_set_same {A : Type} (k : string) (a : A) (d : dict A) :
  dict_get k (dict_set k a d) = Some a.
Proof.
  induction d as [|[k' a'] d IH]; simpl.
  - now rewrite String.eqb_refl.
  - destruct (String.eqb_spec k k') as [->|Hne]; simpl.
    + now rewrite String.eqb_refl.
    + apply String.eqb_neq in Hne. now rewrite Hne.
Qed.

Lemma dict_get_set_other {A : Type} (k k' : string) (a : A) (d : dict A) :
  k <> k' -> dict_get k (dict_set k' a d) = dict_get k d.
Proof.
  intros Hne. induction d as [|[k0 a0] d IH]; simpl.
  - apply String.eqb_neq in Hne. now rewrite Hne.
  - destruct (String.eqb_spec k' k0) as [->|Hne0]; simpl.
    + apply String.eqb_neq in Hne. now rewrite Hne.
    + now rewrite IH.
Qed.

(** Assigning to a key that is present keeps the keys and their order. *)
Lemma keys_set_present {A : Type} (k : string) (a : A) (d : dict A) :
  In k (keys d) -> keys (dict_set k a d) = keys d.
Proof.
  induction d as [|[k' a'] d IH]; simpl; [tauto|].
  intros H. destruct (String.eqb_spec k k') as [->|Hne]; simpl.
  - reflexivity.
  - f_equal. apply IH. destruct H; [congruence | assumption].
Qed.

(** Assigning to a new key inserts it last. *)
Lemma dict_set_absent {A : Type} (k : string) (a : A) (d : dict A) :
  ~ In k (keys d) -> dict_set k a d = d ++ [(k, a)].
Proof.
  induction d as [|[k' a'] d IH]; simpl; [reflexivity|].
  intros H. destruct (String.eqb_spec k k') as [->|Hne].
  - exfalso; apply H; now left.
  - f_equal. apply IH. tauto.
Qed.

Lemma keys_app {A : Type} (d1 d2 : dict A) : keys (d1 ++ d2) = keys d1 ++ keys d2.
Proof. unfold keys. apply map_app. Qed.

Lemma dict_set_wf {A : Type} (k : string) (a : A) (d : dict A) :
  dict_wf d -> dict_wf (dict_set k a d).
Proof.
  unfold dict_wf. intros Hwf.
  destruct (in_dec string_dec k (keys d)) as [I|N].
  - now rewrite keys_set_present.
  - rewrite dict_set_absent, keys_app by assumption. simpl.
    apply NoDup_app; [assumption | repeat constructor; simpl; tauto |].
    intros x Hx [<-|[]]. tauto.
Qed.

(** On a dictionary and a key rewriting that does not merge keys, the
    comprehension rewrites the items one for one, in order. *)
Lemma dict_comprehension_fold {A : Type} (f : string -> string)
      (d acc : dict A) :
  (forall a b, f a = f b -> a = b) ->
  dict_wf d ->
  (forall k, In k (keys d) -> ~ In (f k) (keys acc)) ->
  fold_left (fun acc kv => dict_set (f (fst kv)) (snd kv) acc) d acc
  = acc ++ map (fun kv => (f (fst kv), snd kv)) d.
Proof.
  intros Hinj. revert acc. induction d as [|[k a] d IH]; intros acc Hwf Hfresh; simpl.
  - now rewrite app_nil_r.
  - unfold dict_wf in Hwf. simpl in Hwf. inversion Hwf as [|? ? Hk Hd]; subst.
    rewrite dict_set_absent by (apply Hfresh; now left).
    rewrite IH.
    + now rewrite <- app_assoc.
    + exact Hd.
    + intros k' Hk'. rewrite keys_app. simpl. intros Hin.
      apply in_app_or in Hin. destruct Hin as [Hin|[E|[]]].
      * apply (Hfresh k'); [now right | exact Hin].
      * apply Hinj in E. subst k'. tauto.
Qed.

Lemma dict_comprehension_map {A : Type} (f : string -> string) (d : dict A) :
  (forall a b, f a = f b -> a = b) ->
  dict_wf d ->
  dict_comprehension f d = map (fun kv => (f (fst kv), snd kv)) d.
Proof.
  intros Hinj Hwf. unfold dict_comprehension.
  rewrite dict_comprehension_fold; [reflexivity | assumption | assumption |].
  intros k _ [].
Qed.

(** Whatever it is given, a comprehension yields distinct keys. *)
Lemma dict_comprehension_wf {A : Type} (f : string -> string) (d : dict A) :
  dict_wf (dict_comprehension f d).
Proof.
  unfold dict_comprehension.
  assert (H : forall acc : dict A, dict_wf acc ->
            dict_wf (fold_left (fun acc kv => dict_set (f (fst kv)) (snd kv) acc) d acc)).
  { induction d as [|kv d IH]; intros acc Hacc; simpl; [exact Hacc|].
    apply IH. now apply dict_set_wf. }
  apply H. constructor.
Qed.

(** ** The table transform *)

Lemma unpack_item_spec {A : Type} (res : dict (list A)) (m : string) (v : A) :
  exists res',
    unpack_item res (m, v) = Returned res' /\
    (dict_wf res -> dict_wf res') /\
    forall k, dict_get k res' =
              if String.eqb k m then Some (held (dict_get m res) ++ [v])
              else dict_get k res.
Proof.
  unfold unpack_item, dict_mem.
  destruct (dict_get m res) as [l|] eqn:E; simpl.
  - rewrite E. eexists; split; [reflexivity|]. split.
    + apply dict_set_wf.
    + intros k. destruct (String.eqb_spec k m) as [->|Hne].
      * apply dict_get_set_same.
      * now apply dict_get_set_other.
  - rewrite dict_get_set_same. eexists; split; [reflexivity|]. split.
    + intros Hwf. now do 2 apply dict_set_wf.
    + intros k. destruct (String.eqb_spec k m) as [->|Hne].
      * apply dict_get_set_same.
      * now rewrite !dict_get_set_other.
Qed.

Lemma unpack_dict_spec {A : Type} (d : dict A) :
  forall res : dict (list A),
  exists res',
    unpack_dict res d = Returned res' /\
    (dict_wf res -> dict_wf res') /\
    (dict_wf d ->
     forall k, dict_get k res' =
               match dict_get k d with
               | Some v => Some (held (dict_get k res) ++ [v])
               | None => dict_get k res
               end).
Proof.
  induction d as [|[m v] d IH]; intros res.
  - exists res. simpl. repeat split; auto.
  - cbn [unpack_dict].
    destruct (unpack_item_spec res m v) as (res1 & E1 & W1 & G1).
    destruct (IH res1) as (res' & E' & W' & G').
    exists res'. rewrite E1. cbn [obind]. split; [exact E'|]. split; [auto|].
    intros Hwf k. unfold dict_wf in Hwf. simpl in Hwf.
    inversion Hwf as [|? ? Hm Hd]; subst.
    rewrite (G' Hd k), !G1. cbn [dict_get].
    destruct (String.eqb_spec k m) as [->|Hne].
    + apply dict_get_none_iff in Hm. rewrite Hm. reflexivity.
    + destruct (dict_get k d); reflexivity.
Qed.

Lemma extended_cons {A : Type} (o : option (list A)) (d : dict A)
      (rest : list (dict A)) (k : string) :
  extended (match dict_get k d with
            | Some v => Some (held o ++ [v])
            | None => o
            end) (column k rest)
  = extended o (column k (d :: rest)).
Proof.
  unfold column. simpl. fold (column k rest).
  destruct (dict_get k d) as [v|]; simpl.
  - destruct o as [l|]; simpl.
    + destruct (column k rest); now rewrite <- app_assoc.
    + destruct (column k rest); reflexivity.
  - reflexivity.
Qed.

Lemma unpack_loop_spec {A : Type} (ds : list (dict A)) :
  forall res : dict (list A),
  exists t,
    unpack_loop res ds = Returned t /\
    (dict_wf res -> dict_wf t) /\
    (Forall dict_wf ds ->
     forall k, dict_get k t = extended (dict_get k res) (column k ds)).
Proof.
  induction ds as [|d ds IH]; intros res.
  - exists res. simpl. repeat split; auto. intros _ k.
    destruct (dict_get k res); simpl; [now rewrite app_nil_r | reflexivity].
  - cbn [unpack_loop].
    destruct (unpack_dict_spec d res) as (res1 & E1 & W1 & G1).
    destruct (IH res1) as (t & E & W & G).
    exists t. rewrite E1. cbn [obind]. split; [exact E|]. split; [auto|].
    intros Hwf k. inversion Hwf as [|? ? Hd Hds]; subst.
    rewrite (G Hds k), (G1 Hd k). apply extended_cons.
Qed.

Lemma column_length_le {A : Type} (k : string) (ds : list (dict A)) :
  (List.length (column k ds) <= List.length ds)%nat.
Proof.
  induction ds as [|d ds IH]; simpl; [lia|].
  rewrite length_app. destruct (dict_get k d); simpl; lia.
Qed.

Lemma column_length_all {A : Type} (k : string) (ds : list (dict A)) :
  forallb (dict_mem k) ds = true -> List.length (column k ds) = List.length ds.
Proof.
  induction ds as [|d ds IH]; simpl; [reflexivity|].
  intros H. apply andb_true_iff in H. destruct H as [Hd Hds].
  rewrite length_app, (IH Hds). unfold dict_mem in Hd.
  destruct (dict_get k d); [reflexivity | discriminate].
Qed.

Lemma column_length_missing {A : Type} (k : string) (ds : list (dict A)) :
  existsb (fun d => negb (dict_mem k d)) ds = true ->
  (List.length (column k ds) < List.length ds)%nat.
Proof.
  induction ds as [|d ds IH]; simpl; [discriminate|].
  intros H. rewrite length_app. pose proof (column_length_le k ds) as Hle.
  unfold dict_mem in H. destruct (dict_get k d); simpl in *.
  - specialize (IH H). lia.
  - lia.
Qed.

Lemma column_nil_iff {A : Type} (k : string) (ds : list (dict A)) :
  column k ds = [] <-> existsb (dict_mem k) ds = false.
Proof.
  induction ds as [|d ds IH]; simpl; [tauto|].
  unfold dict_mem at 1. destruct (dict_get k d); simpl.
  - split; discriminate.
  - exact IH.
Qed.

(** What [_unpack_list_dicts] returns, on any sequence of dictionaries. *)
Lemma unpack_list_dicts_spec {A : Type} (ds : list (dict A)) :
  exists t,
    _unpack_list_dicts ds = Returned t /\
    dict_wf t /\
    (Forall dict_wf ds ->
     forall k, dict_get k t =
               if existsb (dict_mem k) ds then Some (column k ds) else None).
Proof.
  unfold _unpack_list_dicts.
  destruct (unpack_loop_spec ds dict_empty) as (t & E & W & G).
  exists t. split; [exact E|]. split; [apply W; constructor|].
  intros Hwf k. rewrite (G Hwf k). simpl.
  destruct (existsb (dict_mem k) ds) eqn:Ex.
  - destruct (column k ds) eqn:Ec; [|reflexivity].
    apply column_nil_iff in Ec. congruence.
  - apply column_nil_iff in Ex. now rewrite Ex.
Qed.

(** ** The hooks, case by case *)

Ltac hook_cases :=
  unfold on_train_batch_end, on_epoch_end, part000_on_train_batch_end,
    part000_on_epoch_end, evaluate, part000_evaluate, bind, get_self,
    set_self, lift, ret, call_model_evaluate, py_mod;
  intros;
  cbv beta iota;
  repeat (match goal with
          | H : ?x = _ |- context [?x] => rewrite H
          | H : ?n <> 0 |- context [?n =? 0] =>
              rewrite (proj2 (Z.eqb_neq n 0) H)
          end;
          try change (0 =? 0) with true;
          cbv beta iota);
  try reflexivity.

Lemma evaluate_returns self w raw :
  model_evaluate (dataset self) w = Returned raw ->
  evaluate self w
  = (Returned (dict_comprehension (fun name => name ++ append self)%string raw),
     self, S w).
Proof. hook_cases. Qed.

Lemma evaluate_raises self w e :
  model_evaluate (dataset self) w = Raised e ->
  evaluate self w = (Raised e, self, S w).
Proof. hook_cases. Qed.

Lemma on_train_batch_end_disabled batch logs self w :
  freq_batches self = None ->
  on_train_batch_end batch logs self w = (Returned tt, self, w).
Proof. hook_cases. Qed.

Lemma on_epoch_end_disabled batch logs self w :
  freq_epochs self = None ->
  on_epoch_end batch logs self w = (Returned tt, self, w).
Proof. hook_cases. Qed.

Lemma on_train_batch_end_zero batch logs self w :
  freq_batches self = Some 0 ->
  on_train_batch_end batch logs self w = (Raised ZeroDivisionError, self, w).
Proof. hook_cases. Qed.

Lemma on_epoch_end_zero batch logs self w :
  freq_epochs self = Some 0 ->
  on_epoch_end batch logs self w = (Raised ZeroDivisionError, self, w).
Proof. hook_cases. Qed.

Lemma on_train_batch_end_fires batch logs self w f raw :
  freq_batches self = Some f -> f <> 0 ->
  batches_seen self mod f = 0 ->
  model_evaluate (dataset self) w = Returned raw ->
  on_train_batch_end batch logs self w
  = (Returned tt,
     incr_batches_seen
       (append_results_batches
          (dict_comprehension (fun name => name ++ append self)%string raw) self),
     S w).
Proof. hook_cases. Qed.

Lemma on_epoch_end_fires batch logs self w f raw :
  freq_epochs self = Some f -> f <> 0 ->
  epochs_seen self mod f = 0 ->
  model_evaluate (dataset self) w = Returned raw ->
  on_epoch_end batch logs self w
  = (Returned tt,
     incr_epochs_seen
       (append_results_epochs
          (dict_comprehension (fun name => name ++ append self)%string raw) self),
     S w).
Proof. hook_cases. Qed.

Lemma on_train_batch_end_aborts batch logs self w f e :
  freq_batches self = Some f -> f <> 0 ->
  batches_seen self mod f = 0 ->
  model_evaluate (dataset self) w = Raised e ->
  on_train_batch_end batch logs self w = (Raised e, self, S w).
Proof. hook_cases. Qed.

Lemma on_epoch_end_aborts batch logs self w f e :
  freq_epochs self = Some f -> f <> 0 ->
  epochs_seen self mod f = 0 ->
  model_evaluate (dataset self) w = Raised e ->
  on_epoch_end batch logs self w = (Raised e, self, S w).
Proof. hook_cases. Qed.

Lemma on_train_batch_end_skips batch logs self w f :
  freq_batches self = Some f -> f <> 0 ->
  batches_seen self mod f <> 0 ->
  on_train_batch_end batch logs self w = (Returned tt, incr_batches_seen self, w).
Proof. hook_cases. Qed.

Lemma on_epoch_end_skips batch logs self w f :
  freq_epochs self = Some f -> f <> 0 ->
  epochs_seen self mod f <> 0 ->
  on_epoch_end batch logs self w = (Returned tt, incr_epochs_seen self, w).
Proof. hook_cases. Qed.

Lemma part000_on_train_batch_end_fires batch logs self w f raw :
  freq_batches self = Some f -> f <> 0 ->
  batches_seen self mod f = 0 ->
  model_evaluate (dataset self) w = Returned raw ->
  part000_on_train_batch_end batch logs self w
  = (Returned tt, incr_batches_seen (append_results_batches raw self), S w).
Proof. hook_cases. Qed.

Lemma part000_on_epoch_end_fires batch logs self w f raw :
  freq_epochs self = Some f -> f <> 0 ->
  epochs_seen self mod f = 0 ->
  model_evaluate (dataset self) w = Returned raw ->
  part000_on_epoch_end batch logs self w
  = (Returned tt, incr_epochs_seen (append_results_epochs raw self), S w).
Proof. hook_cases. Qed.

Lemma part000_on_train_batch_end_skips batch logs self w f :
  freq_batches self = Some f -> f <> 0 ->
  batches_seen self mod f <> 0 ->
  part000_on_train_batch_end batch logs self w
  = (Returned tt, incr_batches_seen self, w).
Proof. hook_cases. Qed.

Lemma part000_on_epoch_end_skips batch logs self w f :
  freq_epochs self = Some f -> f <> 0 ->
  epochs_seen self mod f <> 0 ->
  part000_on_epoch_end batch logs self w
  = (Returned tt, incr_epochs_seen self, w).
Proof. hook_cases. Qed.

(** ** Counting cycles *)

Lemma cycles_S (F : Z) (B : nat) :
  0 < F ->
  cycles F (S B) = cycles F B + (if Z.of_nat B mod F =? 0 then 1 else 0).
Proof.
  intros HF. unfold cycles. simpl Nat.eqb.
  replace (Z.of_nat (S B) - 1) with (Z.of_nat B) by lia.
  destruct B as [|B]; simpl Nat.eqb.
  - reflexivity.
  - set (n := Z.of_nat (S B)). assert (Hn : 0 < n) by (unfold n; lia).
    destruct (Z.eqb_spec (n mod F) 0) as [E|E].
    + assert (Hq : (n - 1) / F = n / F - 1).
      { symmetry. apply Z.div_unique with (r := F - 1); [lia|].
        pose proof (Z.div_mod n F ltac:(lia)). lia. }
      lia.
    + assert (Hq : (n - 1) / F = n / F).
      { symmetry. apply Z.div_unique with (r := n mod F - 1).
        - pose proof (Z.mod_pos_bound n F HF). lia.
        - pose proof (Z.div_mod n F ltac:(lia)). lia. }
      lia.
Qed.

Lemma firstn_snoc {A : Type} (l : list A) (i : nat) :
  (i < List.length l)%nat -> exists a, firstn (S i) l = firstn i l ++ [a].
Proof.
  revert i. induction l as [|x l IH]; intros i Hi; simpl in Hi; [lia|].
  destruct i as [|i].
  - exists x. reflexivity.
  - destruct (IH i ltac:(lia)) as [a Ha]. exists a.
    change (firstn (S (S i)) (x :: l)) with (x :: firstn (S i) l).
    rewrite Ha. reflexivity.
Qed.

Section Schedule.

Variable hook : Z -> option (dict V) -> M unit.

(** A run over [xs] then [ys] is the run over [ys] resumed where the run
    over [xs] returned. *)
Lemma run_hook_app (xs ys : list (Z * option (dict V))) self w :
  run_hook hook (xs ++ ys) self w
  = match run_hook hook xs self w with
    | (Returned _, self', w') => run_hook hook ys self' w'
    | (Raised e, self', w') => (Raised e, self', w')
    end.
Proof.
  revert self w. induction xs as [|[b l] xs IH]; intros self w; simpl.
  - reflexivity.
  - unfold bind. destruct (hook b l self w) as [[[u|e] s1] w1].
    + apply IH.
    + reflexivity.
Qed.

Lemma run_hook_one b l self w :
  run_hook hook [(b, l)] self w = hook b l self w.
Proof.
  simpl. unfold bind, ret.
  destruct (hook b l self w) as [[[[]|e] s1] w1]; reflexivity.
Qed.

Variable F : Z.
Hypothesis F_pos : 0 < F.
Variable seen : EvaluateDataset -> Z.
Variable results : EvaluateDataset -> list (dict V).

(** What holds of the object all along the run. *)
Variable Inv : EvaluateDataset -> Prop.

(** One notification: the counter advances by one, and the model is
    called and one entry appended exactly when the counter was a
    multiple of [F]. *)
Hypothesis hook_step :
  forall b l self w, Inv self ->
    exists self',
      Inv self' /\ seen self' = seen self + 1 /\
      if seen self mod F =? 0
      then hook b l self w = (Returned tt, self', S w) /\
           exists d, results self' = results self ++ [d]
      else hook b l self w = (Returned tt, self', w) /\
           results self' = results self.

Lemma run_hook_counts (args : list (Z * option (dict V))) self0 w0 :
  Inv self0 -> seen self0 = 0 -> results self0 = [] ->
  let final := run_hook hook args self0 w0 in
  result_of final = Returned tt /\
  Inv (self_of final) /\
  seen (self_of final) = Z.of_nat (List.length args) /\
  Z.of_nat (List.length (results (self_of final)))
  = cycles F (List.length args).
Proof.
  intros HI Hs Hr. induction args as [|[b l] args IH] using rev_ind.
  - simpl. unfold result_of, self_of, ret. simpl. rewrite Hr. auto.
  - cbv zeta in IH |- *. rewrite run_hook_app.
    destruct (run_hook hook args self0 w0) as [[o s1] w1].
    unfold result_of, self_of in IH. simpl in IH.
    destruct IH as (Ho & HI1 & Hs1 & Hr1). subst o.
    rewrite run_hook_one.
    destruct (hook_step b l w1 HI1) as (s2 & HI2 & Hs2 & Hcase).
    rewrite length_app. simpl List.length.
    replace (List.length args + 1)%nat with (S (List.length args)) by lia.
    rewrite cycles_S by exact F_pos. rewrite <- Hs1, <- Hr1.
    destruct (seen s1 mod F =? 0).
    + destruct Hcase as (-> & d & Hd). unfold result_of, self_of. simpl.
      rewrite Hd, length_app. simpl. repeat split; auto; lia.
    + destruct Hcase as (-> & Hd). unfold result_of, self_of. simpl.
      rewrite Hd. repeat split; auto; lia.
Qed.

Lemma run_hook_schedule (args : list (Z * option (dict V))) self0 w0 :
  Inv self0 -> seen self0 = 0 -> results self0 = [] ->
  fires_every F hook seen results self0 w0 args.
Proof.
  intros HI Hs Hr. unfold fires_every.
  destruct (run_hook_counts args w0 HI Hs Hr) as (H1 & _ & H3 & H4).
  repeat split; try assumption.
  - destruct (run_hook_counts (firstn i args) w0 HI Hs Hr) as (_ & _ & Hc & _).
    rewrite Hc. rewrite length_firstn. f_equal. lia.
  - destruct (firstn_snoc args H) as [[b l] Hsn]. rewrite Hsn.
    rewrite run_hook_app.
    destruct (run_hook_counts (firstn i args) w0 HI Hs Hr)
      as (Ho & HI1 & Hc & _).
    rewrite length_firstn in Hc.
    replace (Nat.min i (List.length args)) with i in Hc by lia.
    destruct (run_hook hook (firstn i args) self0 w0) as [[o s1] w1].
    unfold result_of, self_of, calls_of in *. cbn [fst snd] in *. subst o.
    rewrite run_hook_one.
    destruct (hook_step b l w1 HI1) as (s2 & _ & _ & Hcase).
    rewrite Hc in Hcase.
    destruct (Z.of_nat i mod F =? 0).
    + destruct Hcase as (-> & d & Hd). simpl. split; [now exists d | reflexivity].
    + destruct Hcase as (-> & Hd). simpl. split; [exact Hd | reflexivity].
Qed.

End Schedule.

(** ** Construction *)

Lemma init_dataset (ds : Dataset) :
  (if isinstance_tf_Dataset ds then ds else _convert_to_dataset ds) = ds.
Proof. destruct (isinstance_tf_Dataset ds); reflexivity. Qed.

(** C2 (amended): [__init__] validates nothing and never fails.  Whatever
    the two frequencies are (absent, positive, zero or negative), it
    returns an object that holds the dataset, the frequencies and the
    suffix as given, with both counters at 0 and both result sequences
    empty.  A frequency of zero surfaces only later: the first
    notification on that axis raises [ZeroDivisionError] and leaves the
    object as it was. *)
Theorem init_never_fails :
  forall (ds : Dataset) (fe fb : option Z) (sfx : string),
  exists self,
    __init__ ds fe fb sfx = Returned self /\
    dataset self = ds /\
    freq_epochs self = fe /\ freq_batches self = fb /\ append self = sfx /\
    batches_seen self = 0 /\ epochs_seen self = 0 /\
    _results_batches self = [] /\ _results_epochs self = [] /\
    (forall b l w, fb = Some 0 ->
       on_train_batch_end b l self w = (Raised ZeroDivisionError, self, w)) /\
    (forall b l w, fe = Some 0 ->
       on_epoch_end b l self w = (Raised ZeroDivisionError, self, w)).
Proof.
  intros ds fe fb sfx. unfold __init__. eexists. split; [reflexivity|].
  cbn [dataset freq_epochs freq_batches append batches_seen epochs_seen
       _results_batches _results_epochs].
  rewrite init_dataset. repeat split.
  - intros b l w ->. now apply on_train_batch_end_zero.
  - intros b l w ->. now apply on_epoch_end_zero.
Qed.

(** ** The schedule *)

Lemma batch_step (F : Z) (ds : Dataset) :
  F <> 0 ->
  (forall n, exists raw, model_evaluate ds n = Returned raw) ->
  forall b l self w,
    freq_batches self = Some F /\ dataset self = ds ->
    exists self',
      (freq_batches self' = Some F /\ dataset self' = ds) /\
      batches_seen self' = batches_seen self + 1 /\
      if batches_seen self mod F =? 0
      then on_train_batch_end b l self w = (Returned tt, self', S w) /\
           exists d, _results_batches self' = _results_batches self ++ [d]
      else on_train_batch_end b l self w = (Returned tt, self', w) /\
           _results_batches self' = _results_batches self.
Proof.
  intros HF Hok b l self w [Hf Hds].
  destruct (Z.eqb_spec (batches_seen self mod F) 0) as [Hm|Hm].
  - destruct (Hok w) as [raw Hraw]. rewrite <- Hds in Hraw.
    pose proof (@on_train_batch_end_fires b l self w F raw Hf HF Hm Hraw) as Hfire.
    eexists. split; [|split; [|split; [exact Hfire|]]].
    + split; [exact Hf | exact Hds].
    + reflexivity.
    + eexists. reflexivity.
  - exists (incr_batches_seen self). repeat split; try assumption.
    exact (@on_train_batch_end_skips b l self w F Hf HF Hm).
Qed.

Lemma epoch_step (F : Z) (ds : Dataset) :
  F <> 0 ->
  (forall n, exists raw, model_evaluate ds n = Returned raw) ->
  forall b l self w,
    freq_epochs self = Some F /\ dataset self = ds ->
    exists self',
      (freq_epochs self' = Some F /\ dataset self' = ds) /\
      epochs_seen self' = epochs_seen self + 1 /\
      if epochs_seen self mod F =? 0
      then on_epoch_end b l self w = (Returned tt, self', S w) /\
           exists d, _results_epochs self' = _results_epochs self ++ [d]
      else on_epoch_end b l self w = (Returned tt, self', w) /\
           _results_epochs self' = _results_epochs self.
Proof.
  intros HF Hok b l self w [Hf Hds].
  destruct (Z.eqb_spec (epochs_seen self mod F) 0) as [Hm|Hm].
  - destruct (Hok w) as [raw Hraw]. rewrite <- Hds in Hraw.
    pose proof (@on_epoch_end_fires b l self w F raw Hf HF Hm Hraw) as Hfire.
    eexists. split; [|split; [|split; [exact Hfire|]]].
    + split; [exact Hf | exact Hds].
    + reflexivity.
    + eexists. reflexivity.
  - exists (incr_epochs_seen self). repeat split; try assumption.
    exact (@on_epoch_end_skips b l self w F Hf HF Hm).
Qed.

Lemma part000_batch_step (F : Z) (ds : Dataset) :
  F <> 0 ->
  (forall n, exists raw, model_evaluate ds n = Returned raw) ->
  forall b l self w,
    freq_batches self = Some F /\ dataset self = ds ->
    exists self',
      (freq_batches self' = Some F /\ dataset self' = ds) /\
      batches_seen self' = batches_seen self + 1 /\
      if batches_seen self mod F =? 0
      then part000_on_train_batch_end b l self w = (Returned tt, self', S w) /\
           exists d, _results_batches self' = _results_batches self ++ [d]
      else part000_on_train_batch_end b l self w = (Returned tt, self', w) /\
           _results_batches self' = _results_batches self.
Proof.
  intros HF Hok b l self w [Hf Hds].
  destruct (Z.eqb_spec (batches_seen self mod F) 0) as [Hm|Hm].
  - destruct (Hok w) as [raw Hraw]. rewrite <- Hds in Hraw.
    pose proof (@part000_on_train_batch_end_fires b l self w F raw Hf HF Hm Hraw) as Hfire.
    eexists. split; [|split; [|split; [exact Hfire|]]].
    + split; [exact Hf | exact Hds].
    + reflexivity.
    + eexists. reflexivity.
  - exists (incr_batches_seen self). repeat split; try assumption.
    exact (@part000_on_train_batch_end_skips b l self w F Hf HF Hm).
Qed.

Lemma part000_epoch_step (F : Z) (ds : Dataset) :
  F <> 0 ->
  (forall n, exists raw, model_evaluate ds n = Returned raw) ->
  forall b l self w,
    freq_epochs self = Some F /\ dataset self = ds ->
    exists self',
      (freq_epochs self' = Some F /\ dataset self' = ds) /\
      epochs_seen self' = epochs_seen self + 1 /\
      if epochs_seen self mod F =? 0
      then part000_on_epoch_end b l self w = (Returned tt, self', S w) /\
           exists d, _results_epochs self' = _results_epochs self ++ [d]
      else part000_on_epoch_end b l self w = (Returned tt, self', w) /\
           _results_epochs self' = _results_epochs self.
Proof.
  intros HF Hok b l self w [Hf Hds].
  destruct (Z.eqb_spec (epochs_seen self mod F) 0) as [Hm|Hm].
  - destruct (Hok w) as [raw Hraw]. rewrite <- Hds in Hraw.
    pose proof (@part000_on_epoch_end_fires b l self w F raw Hf HF Hm Hraw) as Hfire.
    eexists. split; [|split; [|split; [exact Hfire|]]].
    + split; [exact Hf | exact Hds].
    + reflexivity.
    + eexists. reflexivity.
  - exists (incr_epochs_seen self). repeat split; try assumption.
    exact (@part000_on_epoch_end_skips b l self w F Hf HF Hm).
Qed.

(** C1: on a freshly constructed evaluator whose batch frequency is a
    positive integer [F], and with every call of the model's [evaluate]
    succeeding, any sequence of [B] batch-end notifications returns,
    leaves [batches_seen = B] and [floor((B-1)/F) + 1] entries in
    [_results_batches] (none when [B = 0]); the notification of index [i]
    finds the counter at [i] and runs a cycle, appending one entry, exactly
    when [i mod F = 0].  The same holds of epoch-end notifications with
    [epochs_seen], [_results_epochs] and the epoch frequency, and of both
    hooks of the earlier revision. *)
Theorem cycles_fire_every_F :
  forall (F : Z) (ds : Dataset) (other : option Z) (sfx : string)
         (self_b self_e : EvaluateDataset)
         (args : list (Z * option (dict V))) (w0 : World),
    0 < F ->
    (forall n, exists raw, model_evaluate ds n = Returned raw) ->
    __init__ ds other (Some F) sfx = Returned self_b ->
    __init__ ds (Some F) other sfx = Returned self_e ->
    fires_every F on_train_batch_end batches_seen _results_batches self_b w0 args /\
    fires_every F on_epoch_end epochs_seen _results_epochs self_e w0 args /\
    fires_every F part000_on_train_batch_end batches_seen _results_batches
                self_b w0 args /\
    fires_every F part000_on_epoch_end epochs_seen _results_epochs
                self_e w0 args.
Proof.
  intros F ds other sfx self_b self_e args w0 HF Hok Hb He.
  unfold __init__ in Hb, He. injection Hb as <-. injection He as <-.
  assert (HF0 : F <> 0) by lia.
  split; [|split; [|split]].
  - apply run_hook_schedule
      with (Inv := fun s => freq_batches s = Some F /\ dataset s = ds);
      [assumption | now apply batch_step | | reflexivity | reflexivity].
    split; [reflexivity | apply init_dataset].
  - apply run_hook_schedule
      with (Inv := fun s => freq_epochs s = Some F /\ dataset s = ds);
      [assumption | now apply epoch_step | | reflexivity | reflexivity].
    split; [reflexivity | apply init_dataset].
  - apply run_hook_schedule
      with (Inv := fun s => freq_batches s = Some F /\ dataset s = ds);
      [assumption | now apply part000_batch_step | | reflexivity | reflexivity].
    split; [reflexivity | apply init_dataset].
  - apply run_hook_schedule
      with (Inv := fun s => freq_epochs s = Some F /\ dataset s = ds);
      [assumption | now apply part000_epoch_step | | reflexivity | reflexivity].
    split; [reflexivity | apply init_dataset].
Qed.

(** ** One notification *)

(** Every way a batch-end notification can go, with the equation of
    [on_train_batch_end] for it rewritten in the goal. *)
Ltac batch_cases b l self w :=
  let f := fresh "f" in
  let Hf := fresh "Hf" in
  let Hf0 := fresh "Hf0" in
  let Hm := fresh "Hm" in
  let Hev := fresh "Hev" in
  destruct (freq_batches self) as [f|] eqn:Hf;
  [ destruct (Z.eq_dec f 0) as [Hf0|Hf0];
    [ subst f; rewrite (@on_train_batch_end_zero b l self w Hf)
    | destruct (Z.eq_dec (batches_seen self mod f) 0) as [Hm|Hm];
      [ destruct (model_evaluate (dataset self) w) as [?raw|?e] eqn:Hev;
        [ rewrite (@on_train_batch_end_fires b l self w f _ Hf Hf0 Hm Hev)
        | rewrite (@on_train_batch_end_aborts b l self w f _ Hf Hf0 Hm Hev) ]
      | rewrite (@on_train_batch_end_skips b l self w f Hf Hf0 Hm) ] ]
  | rewrite (@on_train_batch_end_disabled b l self w Hf) ].

Ltac epoch_cases b l self w :=
  let f := fresh "f" in
  let Hf := fresh "Hf" in
  let Hf0 := fresh "Hf0" in
  let Hm := fresh "Hm" in
  let Hev := fresh "Hev" in
  destruct (freq_epochs self) as [f|] eqn:Hf;
  [ destruct (Z.eq_dec f 0) as [Hf0|Hf0];
    [ subst f; rewrite (@on_epoch_end_zero b l self w Hf)
    | destruct (Z.eq_dec (epochs_seen self mod f) 0) as [Hm|Hm];
      [ destruct (model_evaluate (dataset self) w) as [?raw|?e] eqn:Hev;
        [ rewrite (@on_epoch_end_fires b l self w f _ Hf Hf0 Hm Hev)
        | rewrite (@on_epoch_end_aborts b l self w f _ Hf Hf0 Hm Hev) ]
      | rewrite (@on_epoch_end_skips b l self w f Hf Hf0 Hm) ] ]
  | rewrite (@on_epoch_end_disabled b l self w Hf) ].

Ltac project := unfold result_of, self_of, calls_of; cbn [fst snd].

(** The dictionaries a hook stores have pairwise distinct keys. *)
Lemma on_train_batch_end_results_wf b l self w :
  Forall dict_wf (_results_batches self) ->
  Forall dict_wf (_results_batches (self_of (on_train_batch_end b l self w))).
Proof.
  intros H. batch_cases b l self w; project; try exact H.
  simpl. apply Forall_app. split; [exact H|].
  constructor; [apply dict_comprehension_wf | constructor].
Qed.

Lemma on_epoch_end_results_wf b l self w :
  Forall dict_wf (_results_epochs self) ->
  Forall dict_wf (_results_epochs (self_of (on_epoch_end b l self w))).
Proof.
  intros H. epoch_cases b l self w; project; try exact H.
  simpl. apply Forall_app. split; [exact H|].
  constructor; [apply dict_comprehension_wf | constructor].
Qed.

(** C3 (amended): both counters start at 0 and never decrease.  A
    notification on an enabled axis that returns normally leaves that
    axis's counter at its prior value plus 1, whether or not a cycle
    fired; a notification on a disabled axis, or one that a failure
    aborts, leaves it unchanged; and a notification never moves the
    counter of the other axis. *)
Theorem counters_advance_by_one :
  forall (b : Z) (l : option (dict V)) (self : EvaluateDataset) (w : World),
    let rb := on_train_batch_end b l self w in
    let re := on_epoch_end b l self w in
    (forall ds fe fb sfx self0,
        __init__ ds fe fb sfx = Returned self0 ->
        batches_seen self0 = 0 /\ epochs_seen self0 = 0) /\
    batches_seen self <= batches_seen (self_of rb) /\
    (freq_batches self <> None -> result_of rb = Returned tt ->
     batches_seen (self_of rb) = batches_seen self + 1) /\
    (freq_batches self = None \/ result_of rb <> Returned tt ->
     batches_seen (self_of rb) = batches_seen self) /\
    epochs_seen (self_of rb) = epochs_seen self /\
    epochs_seen self <= epochs_seen (self_of re) /\
    (freq_epochs self <> None -> result_of re = Returned tt ->
     epochs_seen (self_of re) = epochs_seen self + 1) /\
    (freq_epochs self = None \/ result_of re <> Returned tt ->
     epochs_seen (self_of re) = epochs_seen self) /\
    batches_seen (self_of re) = batches_seen self.
Proof.
  intros b l self w rb re. subst rb re.
  split.
  { intros ds fe fb sfx self0 H. unfold __init__ in H. injection H as <-.
    split; reflexivity. }
  assert (Hb :
    batches_seen self <= batches_seen (self_of (on_train_batch_end b l self w)) /\
    (freq_batches self <> None ->
     result_of (on_train_batch_end b l self w) = Returned tt ->
     batches_seen (self_of (on_train_batch_end b l self w)) = batches_seen self + 1) /\
    (freq_batches self = None \/
     result_of (on_train_batch_end b l self w) <> Returned tt ->
     batches_seen (self_of (on_train_batch_end b l self w)) = batches_seen self) /\
    epochs_seen (self_of (on_train_batch_end b l self w)) = epochs_seen self).
  { batch_cases b l self w; project; simpl;
      (split; [lia|]); (split; [intros; solve [congruence | reflexivity]|]);
      (split; [intros [?|?]; congruence | reflexivity]). }
  assert (He :
    epochs_seen self <= epochs_seen (self_of (on_epoch_end b l self w)) /\
    (freq_epochs self <> None ->
     result_of (on_epoch_end b l self w) = Returned tt ->
     epochs_seen (self_of (on_epoch_end b l self w)) = epochs_seen self + 1) /\
    (freq_epochs self = None \/
     result_of (on_epoch_end b l self w) <> Returned tt ->
     epochs_seen (self_of (on_epoch_end b l self w)) = epochs_seen self) /\
    batches_seen (self_of (on_epoch_end b l self w)) = batches_seen self).
  { epoch_cases b l self w; project; simpl;
      (split; [lia|]); (split; [intros; solve [congruence | reflexivity]|]);
      (split; [intros [?|?]; congruence | reflexivity]). }
  tauto.
Qed.

(** C4: when an axis is disabled (its frequency is [None]) a notification
    on it does nothing at all: the hook returns, the model is not called,
    and the object, that axis's counter included, is left as it was. *)
Theorem disabled_axis_is_noop :
  forall (b : Z) (l : option (dict V)) (self : EvaluateDataset) (w : World),
    (freq_batches self = None ->
     on_train_batch_end b l self w = (Returned tt, self, w)) /\
    (freq_epochs self = None ->
     on_epoch_end b l self w = (Returned tt, self, w)).
Proof.
  intros b l self w. split; intros H.
  - now apply on_train_batch_end_disabled.
  - now apply on_epoch_end_disabled.
Qed.

(** C5: an evaluation cycle calls the model once and returns a new
    dictionary that has, for every item [(rawName, value)] the model
    reported and in the same order, the item
    [(rawName ++ append, value)]; this dictionary is the entry a firing
    notification appends to the result sequence of its axis. *)
Theorem evaluation_cycle_rewrites_keys :
  forall (self : EvaluateDataset) (w : World) (raw : dict V),
    model_evaluate (dataset self) w = Returned raw ->
    dict_wf raw ->
    let tagged := map (fun kv => ((fst kv ++ append self)%string, snd kv)) raw in
    evaluate self w = (Returned tagged, self, S w) /\
    (forall b l f,
        freq_batches self = Some f -> f <> 0 -> batches_seen self mod f = 0 ->
        _results_batches (self_of (on_train_batch_end b l self w))
        = _results_batches self ++ [tagged]) /\
    (forall b l f,
        freq_epochs self = Some f -> f <> 0 -> epochs_seen self mod f = 0 ->
        _results_epochs (self_of (on_epoch_end b l self w))
        = _results_epochs self ++ [tagged]).
Proof.
  intros self w raw Hev Hwf tagged.
  assert (Htag : dict_comprehension (fun name => name ++ append self)%string raw
                 = tagged).
  { unfold tagged.
    apply (@dict_comprehension_map V (fun name => name ++ append self)%string);
      [|exact Hwf].
    intros a b. apply append_suffix_inj. }
  split; [|split].
  - rewrite (evaluate_returns self Hev). now rewrite Htag.
  - intros b l f Hf Hf0 Hm.
    rewrite (@on_train_batch_end_fires b l self w f raw Hf Hf0 Hm Hev).
    project. simpl. now rewrite Htag.
  - intros b l f Hf Hf0 Hm.
    rewrite (@on_epoch_end_fires b l self w f raw Hf Hf0 Hm Hev).
    project. simpl. now rewrite Htag.
Qed.

(** C7: when the model's [evaluate] fails on a notification that fires a
    cycle, the hook raises that very failure to its caller, after exactly
    one call of the model (no retry), and leaves the object as it was:
    nothing is appended and the notification is cut short before the
    counter advances. *)
Theorem evaluation_failure_propagates :
  forall (b : Z) (l : option (dict V)) (self : EvaluateDataset) (w : World)
         (e : exn),
    model_evaluate (dataset self) w = Raised e ->
    (forall f,
        freq_batches self = Some f -> f <> 0 -> batches_seen self mod f = 0 ->
        on_train_batch_end b l self w = (Raised e, self, S w)) /\
    (forall f,
        freq_epochs self = Some f -> f <> 0 -> epochs_seen self mod f = 0 ->
        on_epoch_end b l self w = (Raised e, self, S w)).
Proof.
  intros b l self w e Hev. split; intros f Hf Hf0 Hm.
  - exact (@on_train_batch_end_aborts b l self w f e Hf Hf0 Hm Hev).
  - exact (@on_epoch_end_aborts b l self w f e Hf Hf0 Hm Hev).
Qed.

(** C9: the two arguments of a hook, the ordinal and the training logs
    (absent or not), have no influence: from the same object and the same
    model, two batch-end notifications give the same outcome, the same
    object and the same number of model calls whatever their arguments,
    and so do two epoch-end notifications, and two runs of equally many
    notifications. *)
Theorem hooks_ignore_ordinal_and_logs :
  forall (b1 b2 : Z) (l1 l2 : option (dict V)) (self : EvaluateDataset)
         (w : World),
    on_train_batch_end b1 l1 self w = on_train_batch_end b2 l2 self w /\
    on_epoch_end b1 l1 self w = on_epoch_end b2 l2 self w /\
    (forall args1 args2 : list (Z * option (dict V)),
        List.length args1 = List.length args2 ->
        run_hook on_train_batch_end args1 self w
        = run_hook on_train_batch_end args2 self w /\
        run_hook on_epoch_end args1 self w
        = run_hook on_epoch_end args2 self w).
Proof.
  intros b1 b2 l1 l2 self w. split; [reflexivity|]. split; [reflexivity|].
  intros args1. revert self w.
  induction args1 as [|[c1 m1] args1 IH]; intros self w [|[c2 m2] args2] Hlen;
    simpl in Hlen; try discriminate.
  - split; reflexivity.
  - injection Hlen as Hlen. simpl. unfold bind.
    change (on_train_batch_end c1 m1 self w)
      with (on_train_batch_end c2 m2 self w).
    change (on_epoch_end c1 m1 self w) with (on_epoch_end c2 m2 self w).
    split.
    + destruct (on_train_batch_end c2 m2 self w) as [[[u|e] s1] w1];
        [|reflexivity]. now apply IH.
    + destruct (on_epoch_end c2 m2 self w) as [[[u|e] s1] w1];
        [|reflexivity]. now apply IH.
Qed.

(** ** The result tables *)

Lemma same_key_set_all {A : Type} (ds : list (dict A)) (k : string) :
  same_key_set ds ->
  existsb (dict_mem k) ds = true -> forallb (dict_mem k) ds = true.
Proof.
  intros Hsame Hex. apply existsb_exists in Hex. destruct Hex as (d0 & Hin0 & Hk).
  apply forallb_forall. intros d Hin. now rewrite (Hsame d d0 k Hin Hin0).
Qed.

(** A table read from a stored result sequence [rs]. *)
Lemma results_table (rs : list (dict V)) :
  rs <> [] -> Forall dict_wf rs ->
  exists t,
    (if (List.length rs =? 0)%nat
     then Raised (ValueError "No values stored yet.")
     else _unpack_list_dicts rs) = Returned t /\
    (forall k, dict_get k t =
               if existsb (dict_mem k) rs then Some (column k rs) else None) /\
    (same_key_set rs ->
     forall k vs, dict_get k t = Some vs -> List.length vs = List.length rs).
Proof.
  intros Hne Hwf.
  destruct (unpack_list_dicts_spec rs) as (t & E & _ & G).
  exists t. split; [|split].
  - destruct rs; [congruence | exact E].
  - exact (G Hwf).
  - intros Hsame k vs Hk. rewrite (G Hwf k) in Hk.
    destruct (existsb (dict_mem k) rs) eqn:Ex; [|discriminate].
    injection Hk as <-. apply column_length_all. now apply same_key_set_all.
Qed.

(** C6: an accessor read while the result sequence of its axis is empty
    raises the class's "no results" error,
    [ValueError("No values stored yet.")].  Read when at least one cycle
    has stored its dictionary, it returns a table in which every metric
    name that some cycle reported maps to that metric's values in cycle
    order, and no other name is present; when all stored dictionaries
    have the same key set, every value sequence of the table is as long as
    the result sequence, one value per cycle. *)
Theorem results_accessors :
  forall self : EvaluateDataset,
    (_results_batches self = [] ->
     results_batches self = Raised (ValueError "No values stored yet.")) /\
    (_results_epochs self = [] ->
     results_epochs self = Raised (ValueError "No values stored yet.")) /\
    (_results_batches self <> [] -> Forall dict_wf (_results_batches self) ->
     exists t,
       results_batches self = Returned t /\
       (forall k, dict_get k t =
                  if existsb (dict_mem k) (_results_batches self)
                  then Some (column k (_results_batches self)) else None) /\
       (same_key_set (_results_batches self) ->
        forall k vs, dict_get k t = Some vs ->
                     List.length vs = List.length (_results_batches self))) /\
    (_results_epochs self <> [] -> Forall dict_wf (_results_epochs self) ->
     exists t,
       results_epochs self = Returned t /\
       (forall k, dict_get k t =
                  if existsb (dict_mem k) (_results_epochs self)
                  then Some (column k (_results_epochs self)) else None) /\
       (same_key_set (_results_epochs self) ->
        forall k vs, dict_get k t = Some vs ->
                     List.length vs = List.length (_results_epochs self))).
Proof.
  intros self. unfold results_batches, results_epochs.
  split; [|split; [|split]].
  - intros ->. reflexivity.
  - intros ->. reflexivity.
  - apply results_table.
  - apply results_table.
Qed.

(** C10: [_unpack_list_dicts] returns, without raising, on every sequence
    of dictionaries, whether or not their key sets agree.  In the table
    it returns, each key that occurs in at least one dictionary maps to
    its values taken, in sequence order, from exactly the dictionaries
    that contain it, and no other key is present.  So a key that every
    dictionary contains has one value per dictionary, and a key that some
    dictionary lacks has a strictly shorter list: the lists are
    misaligned and nothing fails. *)
Theorem unpack_list_dicts_ragged :
  forall (A : Type) (ds : list (dict A)),
    Forall dict_wf ds ->
    exists t,
      _unpack_list_dicts ds = Returned t /\
      (forall k, dict_get k t =
                 if existsb (dict_mem k) ds then Some (column k ds) else None) /\
      (forall k, forallb (dict_mem k) ds = true ->
                 List.length (column k ds) = List.length ds) /\
      (forall k, existsb (fun d => negb (dict_mem k d)) ds = true ->
                 (List.length (column k ds) < List.length ds)%nat).
Proof.
  intros A ds Hwf.
  destruct (unpack_list_dicts_spec ds) as (t & E & _ & G).
  exists t. split; [exact E|]. split; [exact (G Hwf)|]. split.
  - intros k. apply column_length_all.
  - intros k. apply column_length_missing.
Qed.

(** ** More on the table transform *)

Lemma existsb_eqb_keys {A : Type} (k : string) (d : dict A) :
  existsb (String.eqb k) (keys d) = dict_mem k d.
Proof.
  unfold dict_mem. induction d as [|[k' a] d IH]; simpl; [reflexivity|].
  destruct (String.eqb k k'); [reflexivity | exact IH].
Qed.

Lemma first_seen_app (seen ks1 ks2 : list string) :
  first_seen seen (ks1 ++ ks2) = first_seen (first_seen seen ks1) ks2.
Proof.
  revert seen. induction ks1 as [|k ks1 IH]; intros seen; simpl;
    [reflexivity | apply IH].
Qed.

Lemma first_seen_prefix (seen ks : list string) :
  exists more, first_seen seen ks = seen ++ more.
Proof.
  revert seen. induction ks as [|k ks IH]; intros seen; simpl.
  - exists []. now rewrite app_nil_r.
  - destruct (existsb (String.eqb k) seen).
    + apply IH.
    + destruct (IH (seen ++ [k])) as [more Hm]. exists (k :: more).
      rewrite Hm, <- app_assoc. reflexivity.
Qed.

Lemma unpack_item_keys {A : Type} (res : dict (list A)) (m : string) (v : A) :
  exists res',
    unpack_item res (m, v) = Returned res' /\
    keys res' = first_seen (keys res) [m] /\
    total_values res' = S (total_values res).
Proof.
  assert (Hset : forall (d : dict (list A)) l l',
             dict_get m d = Some l ->
             (total_values (dict_set m l' d) + List.length l
              = total_values d + List.length l')%nat).
  { unfold total_values. induction d as [|[k0 l0] d IH]; intros l l' Hg;
      simpl in *; [discriminate|].
    destruct (String.eqb m k0).
    - injection Hg as ->. simpl. lia.
    - simpl. specialize (IH l l' Hg). lia. }
  unfold unpack_item, dict_mem. simpl first_seen. rewrite existsb_eqb_keys.
  unfold dict_mem.
  destruct (dict_get m res) as [l|] eqn:E; simpl.
  - rewrite E. eexists; split; [reflexivity|]. split.
    + apply keys_set_present. apply dict_mem_true_iff. unfold dict_mem.
      now rewrite E.
    + pose proof (Hset res l (l ++ [v]) E) as H. rewrite length_app in H.
      simpl in H. lia.
  - rewrite dict_get_set_same. eexists; split; [reflexivity|].
    assert (Habs : ~ In m (keys res)) by now apply dict_get_none_iff.
    rewrite (dict_set_absent m [] res Habs). split.
    + rewrite keys_set_present; rewrite keys_app; simpl;
        [reflexivity | apply in_or_app; right; now left].
    + assert (Hg : dict_get m (res ++ [(m, @nil A)]) = Some []).
      { rewrite <- (dict_set_absent m [] res Habs). apply dict_get_set_same. }
      pose proof (Hset _ [] ([] ++ [v]) Hg) as H. simpl in H.
      assert (Ht : total_values (res ++ [(m, @nil A)]) = total_values res).
      { unfold total_values. rewrite map_app, list_sum_app. simpl. lia. }
      change (@nil A ++ [v]) with [v]. lia.
Qed.

Lemma unpack_dict_keys {A : Type} (d : dict A) :
  forall res : dict (list A),
  exists res',
    unpack_dict res d = Returned res' /\
    keys res' = first_seen (keys res) (keys d) /\
    total_values res' = (total_values res + List.length d)%nat.
Proof.
  induction d as [|[m v] d IH]; intros res.
  - exists res. simpl. repeat split; lia.
  - cbn [unpack_dict].
    destruct (unpack_item_keys res m v) as (res1 & E1 & K1 & T1).
    destruct (IH res1) as (res' & E' & K' & T').
    exists res'. rewrite E1. cbn [obind]. split; [exact E'|]. split.
    + rewrite K', K1. reflexivity.
    + rewrite T', T1. simpl. lia.
Qed.

Lemma unpack_loop_keys {A : Type} (ds : list (dict A)) :
  forall res : dict (list A),
  exists t,
    unpack_loop res ds = Returned t /\
    keys t = first_seen (keys res) (flat_map (fun d => keys d) ds) /\
    total_values t = (total_values res + total_items ds)%nat.
Proof.
  induction ds as [|d ds IH]; intros res.
  - exists res. simpl. repeat split. unfold total_items. simpl. lia.
  - cbn [unpack_loop].
    destruct (unpack_dict_keys d res) as (res1 & E1 & K1 & T1).
    destruct (IH res1) as (t & E & K & T).
    exists t. rewrite E1. cbn [obind]. split; [exact E|]. split.
    + rewrite K, K1. simpl. now rewrite first_seen_app.
    + rewrite T, T1. unfold total_items. simpl. lia.
Qed.

Lemma column_app {A : Type} (k : string) (ds1 ds2 : list (dict A)) :
  column k (ds1 ++ ds2) = column k ds1 ++ column k ds2.
Proof. unfold column. apply flat_map_app. Qed.

Lemma column_nth {A : Type} (k : string) (ds : list (dict A)) :
  forallb (dict_mem k) ds = true ->
  forall i, nth_error (column k ds) i
            = match nth_error ds i with
              | Some d => dict_get k d
              | None => None
              end.
Proof.
  induction ds as [|d ds IH]; intros Hall i.
  - destruct i; reflexivity.
  - simpl in Hall. apply andb_true_iff in Hall. destruct Hall as [Hd Hds].
    unfold dict_mem in Hd. unfold column. simpl. fold (column k ds).
    destruct (dict_get k d) as [v|] eqn:E; [|discriminate].
    destruct i as [|i]; simpl; [now rewrite E | now apply IH].
Qed.


(** When the stored dictionaries all have the same key set, the table is
    aligned with the cycles: in every column, the value of index [i] is the
    value cycle [i] reported for that metric. *)
Theorem table_rows_aligned :
  forall (A : Type) (ds : list (dict A)),
    Forall dict_wf ds ->
    same_key_set ds ->
    exists t,
      _unpack_list_dicts ds = Returned t /\
      forall k vs i d,
        dict_get k t = Some vs -> nth_error ds i = Some d ->
        exists v, nth_error vs i = Some v /\ dict_get k d = Some v.
Proof.
  intros A ds Hwf Hsame.
  destruct (unpack_list_dicts_spec ds) as (t & E & _ & G).
  exists t. split; [exact E|].
  intros k vs i d Hk Hi. rewrite (G Hwf k) in Hk.
  destruct (existsb (dict_mem k) ds) eqn:Ex; [|discriminate].
  injection Hk as <-.
  pose proof (@same_key_set_all A ds k Hsame Ex) as Hall.
  rewrite (@column_nth A k ds Hall i), Hi.
  assert (Hm : dict_mem k d = true).
  { rewrite forallb_forall in Hall. apply Hall. eapply nth_error_In; eauto. }
  unfold dict_mem in Hm. destruct (dict_get k d) as [v|]; [|discriminate].
  exists v. split; reflexivity.
Qed.

(** Reading the table again after more cycles only extends it: every
    column of the earlier table is continued by the values of the later
    cycles, and the earlier keys keep their places, new ones coming after
    them. *)
Theorem table_extends :
  forall (A : Type) (ds1 ds2 : list (dict A)),
    Forall dict_wf ds1 -> Forall dict_wf ds2 ->
    exists t1 t2,
      _unpack_list_dicts ds1 = Returned t1 /\
      _unpack_list_dicts (ds1 ++ ds2) = Returned t2 /\
      (forall k vs, dict_get k t1 = Some vs ->
                    dict_get k t2 = Some (vs ++ column k ds2)) /\
      exists newer, keys t2 = keys t1 ++ newer.
Proof.
  intros A ds1 ds2 Hwf1 Hwf2.
  destruct (unpack_list_dicts_spec ds1) as (t1 & E1 & _ & G1).
  destruct (unpack_list_dicts_spec (ds1 ++ ds2)) as (t2 & E2 & _ & G2).
  exists t1, t2. split; [exact E1|]. split; [exact E2|]. split.
  - intros k vs Hk. rewrite (G1 Hwf1 k) in Hk.
    destruct (existsb (dict_mem k) ds1) eqn:Ex; [|discriminate].
    injection Hk as <-.
    rewrite G2 by (apply Forall_app; now split).
    rewrite existsb_app, Ex. simpl. now rewrite column_app.
  - destruct (unpack_loop_keys ds1 dict_empty) as (t1' & E1' & K1 & _).
    destruct (unpack_loop_keys (ds1 ++ ds2) dict_empty) as (t2' & E2' & K2 & _).
    unfold _unpack_list_dicts in E1, E2.
    rewrite E1 in E1'. injection E1' as <-.
    rewrite E2 in E2'. injection E2' as <-.
    rewrite K2, flat_map_app, first_seen_app, <- K1.
    apply first_seen_prefix.
Qed.

(** The table transform of the earlier revision never builds a non-empty
    table: it raises [KeyError] on the first key of the first non-empty
    dictionary, and returns the empty table only when every dictionary is
    empty. *)
Theorem part000_unpack_list_dicts_raises :
  forall (A : Type) (ds : list (dict A)),
    part000_unpack_list_dicts ds
    = match List.concat ds with
      | [] => Returned dict_empty
      | (k, _) :: _ => Raised (KeyError k)
      end.
Proof.
  intros A ds. unfold part000_unpack_list_dicts.
  induction ds as [|d ds IH]; [reflexivity|].
  destruct d as [|[k v] d]; simpl.
  - exact IH.
  - reflexivity.
Qed.

(** ** Frequencies of either sign *)

(** [a % F == 0] says that [F] divides [a], whatever the sign of [F]. *)
Lemma mod_abs_eqb (a F : Z) :
  F <> 0 -> (a mod Z.abs F =? 0) = (a mod F =? 0).
Proof.
  intros HF.
  destruct (Z.eqb_spec (a mod Z.abs F) 0) as [E1|E1];
    destruct (Z.eqb_spec (a mod F) 0) as [E2|E2]; try reflexivity; exfalso.
  - apply E2. apply Z.mod_divide; [exact HF|].
    apply Z.divide_abs_l. apply Z.mod_divide; [lia | exact E1].
  - apply E1. apply Z.mod_divide; [lia|].
    apply Z.divide_abs_l. apply Z.mod_divide; [exact HF | exact E2].
Qed.

(** One more notification on an axis of frequency [F]: the entry count
    follows the counter. *)
Lemma entries_step (F seen : Z) (len : nat) :
  F <> 0 -> 0 <= seen ->
  Z.of_nat len = cycles (Z.abs F) (Z.to_nat seen) ->
  Z.of_nat len + (if seen mod F =? 0 then 1 else 0)
  = cycles (Z.abs F) (Z.to_nat (seen + 1)).
Proof.
  intros HF Hs Hlen.
  replace (Z.to_nat (seen + 1)) with (S (Z.to_nat seen)) by lia.
  rewrite cycles_S by lia. rewrite Z2Nat.id by exact Hs.
  rewrite mod_abs_eqb by exact HF. lia.
Qed.

(** A frequency of either sign schedules as its absolute value does: on a
    freshly constructed evaluator whose frequency is any non-zero integer
    [F], with every evaluation succeeding, a run of [B] notifications
    stores [floor((B-1)/|F|) + 1] entries and fires on the notifications
    whose index is a multiple of [|F|]; with [F = -1] every notification
    fires. *)
Theorem nonzero_frequency_schedule :
  forall (F : Z) (ds : Dataset) (other : option Z) (sfx : string)
         (self_b self_e : EvaluateDataset)
         (args : list (Z * option (dict V))) (w0 : World),
    F <> 0 ->
    (forall n, exists raw, model_evaluate ds n = Returned raw) ->
    __init__ ds other (Some F) sfx = Returned self_b ->
    __init__ ds (Some F) other sfx = Returned self_e ->
    fires_every (Z.abs F) on_train_batch_end batches_seen _results_batches
                self_b w0 args /\
    fires_every (Z.abs F) on_epoch_end epochs_seen _results_epochs
                self_e w0 args.
Proof.
  intros F ds other sfx self_b self_e args w0 HF Hok Hb He.
  unfold __init__ in Hb, He. injection Hb as <-. injection He as <-.
  assert (Habs : 0 < Z.abs F) by lia.
  split.
  - apply run_hook_schedule
      with (Inv := fun s => freq_batches s = Some F /\ dataset s = ds);
      [assumption | | | reflexivity | reflexivity].
    + intros b l self w HI. rewrite mod_abs_eqb by exact HF.
      now apply batch_step.
    + split; [reflexivity | apply init_dataset].
  - apply run_hook_schedule
      with (Inv := fun s => freq_epochs s = Some F /\ dataset s = ds);
      [assumption | | | reflexivity | reflexivity].
    + intros b l self w HI. rewrite mod_abs_eqb by exact HF.
      now apply epoch_step.
    + split; [reflexivity | apply init_dataset].
Qed.

(** ** After a failure *)

(** A cycle that failed is tried again by the next notification of the
    axis: the failure left the counter where it was, so the next
    notification finds the same multiple of the frequency, calls the model
    again and, if that call succeeds, stores its result and only then
    advances the counter. *)
Theorem failed_cycle_is_retried :
  forall (b b' : Z) (l l' : option (dict V)) (self : EvaluateDataset)
         (w : World) (e : exn) (raw : dict V),
    model_evaluate (dataset self) w = Raised e ->
    model_evaluate (dataset self) (S w) = Returned raw ->
    (forall f,
        freq_batches self = Some f -> f <> 0 -> batches_seen self mod f = 0 ->
        let failed := on_train_batch_end b l self w in
        result_of failed = Raised e /\
        on_train_batch_end b' l' (self_of failed) (calls_of failed)
        = (Returned tt,
           incr_batches_seen
             (append_results_batches (tagged (append self) raw) self),
           S (S w))) /\
    (forall f,
        freq_epochs self = Some f -> f <> 0 -> epochs_seen self mod f = 0 ->
        let failed := on_epoch_end b l self w in
        result_of failed = Raised e /\
        on_epoch_end b' l' (self_of failed) (calls_of failed)
        = (Returned tt,
           incr_epochs_seen
             (append_results_epochs (tagged (append self) raw) self),
           S (S w))).
Proof.
  intros b b' l l' self w e raw Hfail Hok. split; intros f Hf Hf0 Hm; cbv zeta.
  - rewrite (@on_train_batch_end_aborts b l self w f e Hf Hf0 Hm Hfail).
    project. split; [reflexivity|].
    exact (@on_train_batch_end_fires b' l' self (S w) f raw Hf Hf0 Hm Hok).
  - rewrite (@on_epoch_end_aborts b l self w f e Hf Hf0 Hm Hfail).
    project. split; [reflexivity|].
    exact (@on_epoch_end_fires b' l' self (S w) f raw Hf Hf0 Hm Hok).
Qed.

(** ** Runs that mix the two axes *)

Lemma run_app (xs ys : list notification) self w :
  run (xs ++ ys) self w
  = match run xs self w with
    | (Returned _, self', w') => run ys self' w'
    | (Raised e, self', w') => (Raised e, self', w')
    end.
Proof.
  revert self w. induction xs as [|n xs IH]; intros self w; simpl.
  - reflexivity.
  - unfold bind. destruct (deliver n self w) as [[[u|e] s1] w1].
    + apply IH.
    + reflexivity.
Qed.

Lemma run_one n self w : run [n] self w = deliver n self w.
Proof.
  simpl. unfold bind, ret.
  destruct (deliver n self w) as [[[[]|e] s1] w1]; reflexivity.
Qed.

Lemma batch_ends_snoc (ns : list notification) (n : notification) :
  batch_ends (ns ++ [n])
  = (batch_ends ns + if is_batch_end n then 1 else 0)%nat.
Proof.
  unfold batch_ends. rewrite filter_app, length_app. simpl.
  destruct (is_batch_end n); reflexivity.
Qed.

Lemma epoch_ends_snoc (ns : list notification) (n : notification) :
  epoch_ends (ns ++ [n])
  = (epoch_ends ns + if is_epoch_end n then 1 else 0)%nat.
Proof.
  unfold epoch_ends. rewrite filter_app, length_app. simpl.
  destruct (is_epoch_end n); reflexivity.
Qed.

(** Whatever the model does, a notification keeps the entry counts in
    step with the counters. *)
Lemma deliver_consistent (n : notification) self w :
  consistent self -> consistent (self_of (deliver n self w)).
Proof.
  intros Hc. destruct n as [b l|b l]; simpl deliver.
  - batch_cases b l self w; project; try exact Hc;
      destruct Hc as [(H0 & Hlen & Hz) He]; (split; [|exact He]);
      rewrite Hf in Hlen; simpl in Hlen;
      pose proof (entries_step (List.length (_results_batches self))
                    Hf0 H0 Hlen) as Hs;
      unfold axis_consistent; simpl; rewrite Hf; simpl;
      (split; [lia|]); (split; [|intros [Hn|Hn]; [discriminate | congruence]]).
    + rewrite length_app. simpl. rewrite Hm in Hs. simpl in Hs. lia.
    + rewrite (proj2 (Z.eqb_neq _ _) Hm) in Hs. lia.
  - epoch_cases b l self w; project; try exact Hc;
      destruct Hc as [Hb (H0 & Hlen & Hz)]; (split; [exact Hb|]);
      rewrite Hf in Hlen; simpl in Hlen;
      pose proof (entries_step (List.length (_results_epochs self))
                    Hf0 H0 Hlen) as Hs;
      unfold axis_consistent; simpl; rewrite Hf; simpl;
      (split; [lia|]); (split; [|intros [Hn|Hn]; [discriminate | congruence]]).
    + rewrite length_app. simpl. rewrite Hm in Hs. simpl in Hs. lia.
    + rewrite (proj2 (Z.eqb_neq _ _) Hm) in Hs. lia.
Qed.

Lemma run_consistent (ns : list notification) :
  forall self w, consistent self -> consistent (self_of (run ns self w)).
Proof.
  induction ns as [|n ns IH]; intros self w Hc; simpl.
  - exact Hc.
  - unfold bind. pose proof (deliver_consistent n w Hc) as H1.
    destruct (deliver n self w) as [[[u|e] s1] w1];
      unfold self_of in H1; simpl in H1.
    + now apply IH.
    + exact H1.
Qed.

Lemma init_consistent (ds : Dataset) (fe fb : option Z) (sfx : string) self0 :
  __init__ ds fe fb sfx = Returned self0 -> consistent self0.
Proof.
  intros H. unfold __init__ in H. injection H as <-.
  unfold consistent, axis_consistent. simpl.
  split; (split; [lia|]); (split; [|reflexivity]).
  - destruct fb; reflexivity.
  - destruct fe; reflexivity.
Qed.

(** In every state an evaluator can reach from its construction, by any
    notifications in any order and whatever the frequencies are and the
    model does (failures included), the counter of each axis determines
    the number of entries the axis has stored: [floor((seen-1)/|F|) + 1]
    for a counter [seen >= 1] and a frequency [F], none for a counter at 0;
    and the counter of an axis that is disabled or has frequency 0 is
    still 0. *)
Theorem reachable_states_consistent :
  forall (ds : Dataset) (fe fb : option Z) (sfx : string)
         (self0 : EvaluateDataset) (ns : list notification) (w0 : World),
    __init__ ds fe fb sfx = Returned self0 ->
    consistent (self_of (run ns self0 w0)).
Proof.
  intros ds fe fb sfx self0 ns w0 H. apply run_consistent.
  exact (init_consistent H).
Qed.

Lemma grown_refl self : grown self self [] [].
Proof. unfold grown. rewrite !app_nil_r. repeat split; lia. Qed.

Lemma grown_trans s0 s1 s2 ab1 ae1 ab2 ae2 :
  grown s0 s1 ab1 ae1 -> grown s1 s2 ab2 ae2 ->
  grown s0 s2 (ab1 ++ ab2) (ae1 ++ ae2).
Proof.
  unfold grown. intros (Hd & Hfe & Hfb & Ha & Hrb & Hre & Hb & He)
                       (Hd' & Hfe' & Hfb' & Ha' & Hrb' & Hre' & Hb' & He').
  rewrite Hd', Hfe', Hfb', Ha', Hrb', Hre', Hrb, Hre, !app_assoc.
  repeat split; try assumption; lia.
Qed.

(** One notification appends at most one entry, to the sequence of its own
    axis, and calls the model at most once. *)
Lemma deliver_grown (n : notification) self w :
  exists added_b added_e,
    grown self (self_of (deliver n self w)) added_b added_e /\
    Forall dict_wf added_b /\ Forall dict_wf added_e /\
    (w + List.length added_b + List.length added_e <= calls_of (deliver n self w)
     <= S (w + List.length added_b + List.length added_e))%nat /\
    (result_of (deliver n self w) = Returned tt ->
     calls_of (deliver n self w)
     = (w + List.length added_b + List.length added_e)%nat).
Proof.
  assert (Hsame : forall o, exists added_b added_e : list (dict V),
             grown self self added_b added_e /\
             Forall dict_wf added_b /\ Forall dict_wf added_e /\
             (w + List.length added_b + List.length added_e <= w
              <= S (w + List.length added_b + List.length added_e))%nat /\
             (o = Returned tt ->
              w = (w + List.length added_b + List.length added_e)%nat)).
  { intros o. exists [], []. split; [apply grown_refl|].
    split; [constructor|]. split; [constructor|]. split; [simpl; lia|].
    intros _. simpl. lia. }
  assert (Hraise : forall e, exists added_b added_e : list (dict V),
             grown self self added_b added_e /\
             Forall dict_wf added_b /\ Forall dict_wf added_e /\
             (w + List.length added_b + List.length added_e <= S w
              <= S (w + List.length added_b + List.length added_e))%nat /\
             (@Raised unit e = Returned tt ->
              S w = (w + List.length added_b + List.length added_e)%nat)).
  { intros e. exists [], []. split; [apply grown_refl|].
    split; [constructor|]. split; [constructor|]. split; [simpl; lia|].
    intros H. discriminate H. }
  destruct n as [b l|b l]; simpl deliver.
  - batch_cases b l self w; project;
      try apply Hsame; try apply Hraise.
    + eexists [_], []. split; [|repeat split].
      * unfold grown. simpl. rewrite app_nil_r. repeat split; lia.
      * constructor; [apply dict_comprehension_wf | constructor].
      * constructor.
      * simpl. lia.
      * simpl. lia.
      * simpl. lia.
    + exists [], []. split; [|repeat split; try constructor; simpl; lia].
      unfold grown. simpl. rewrite !app_nil_r. repeat split; lia.
  - epoch_cases b l self w; project;
      try apply Hsame; try apply Hraise.
    + eexists [], [_]. split; [|repeat split].
      * unfold grown. simpl. rewrite app_nil_r. repeat split; lia.
      * constructor.
      * constructor; [apply dict_comprehension_wf | constructor].
      * simpl. lia.
      * simpl. lia.
      * simpl. lia.
    + exists [], []. split; [|repeat split; try constructor; simpl; lia].
      unfold grown. simpl. rewrite !app_nil_r. repeat split; lia.
Qed.

(** A run only appends. *)
Lemma run_grown :
  forall (ns : list notification) (self : EvaluateDataset) (w : World),
  exists added_b added_e,
    grown self (self_of (run ns self w)) added_b added_e /\
    Forall dict_wf added_b /\ Forall dict_wf added_e /\
    (w + List.length added_b + List.length added_e <= calls_of (run ns self w)
     <= S (w + List.length added_b + List.length added_e))%nat /\
    (result_of (run ns self w) = Returned tt ->
     calls_of (run ns self w)
     = (w + List.length added_b + List.length added_e)%nat).
Proof.
  induction ns as [|n ns IH]; intros self w.
  - exists [], []. split; [apply grown_refl|].
    simpl. unfold calls_of, ret. simpl. repeat split; try constructor; lia.
  - destruct (deliver_grown n self w) as (ab1 & ae1 & G1 & W1 & W1' & C1 & R1).
    simpl. unfold bind.
    destruct (deliver n self w) as [[[[]|e] s1] w1];
      unfold result_of, self_of, calls_of in *; simpl in *.
    + specialize (R1 eq_refl). subst w1.
      destruct (IH s1 (w + List.length ab1 + List.length ae1)%nat)
        as (ab2 & ae2 & G2 & W2 & W2' & C2 & R2).
      exists (ab1 ++ ab2), (ae1 ++ ae2).
      split; [eapply grown_trans; eassumption|].
      rewrite !length_app.
      split; [apply Forall_app; now split|].
      split; [apply Forall_app; now split|].
      split; [lia|]. intros H. specialize (R2 H). lia.
    + exists ab1, ae1. split; [exact G1|]. split; [exact W1|].
      split; [exact W1'|]. split; [lia|]. intros H. discriminate H.
Qed.

(** Whatever the notifications, the frequencies and the model's behaviour,
    a run only appends: the dataset, the two frequencies and the suffix
    stay as they were, the entries stored before the run are still there,
    unchanged and in place, with the new ones after them; the counters do
    not go back; and the model has been called once for each new entry,
    plus once more if the run ended in a failed evaluation. *)
Theorem run_only_appends :
  forall (ns : list notification) (self : EvaluateDataset) (w : World),
  exists added_b added_e,
    grown self (self_of (run ns self w)) added_b added_e /\
    Forall dict_wf added_b /\ Forall dict_wf added_e /\
    (w + List.length added_b + List.length added_e <= calls_of (run ns self w)
     <= S (w + List.length added_b + List.length added_e))%nat /\
    (result_of (run ns self w) = Returned tt ->
     calls_of (run ns self w)
     = (w + List.length added_b + List.length added_e)%nat).
Proof.
  intros ns self w.
  destruct (run_grown ns self w) as (ab & ae & G & Wb & We & C & R).
  exists ab, ae. split; [exact G|]. split; [exact Wb|]. split; [exact We|].
  split; [exact C | exact R].
Qed.



(** ** What is stored, and the history the accessors give *)

Lemma dict_get_map_keys {A : Type} (f : string -> string) (k : string)
      (d : dict A) :
  (forall a b, f a = f b -> a = b) ->
  dict_get (f k) (map (fun kv => (f (fst kv), snd kv)) d) = dict_get k d.
Proof.
  intros Hinj. induction d as [|[k' a] d IH]; simpl; [reflexivity|].
  destruct (String.eqb_spec k k') as [->|Hne].
  - now rewrite String.eqb_refl.
  - destruct (String.eqb_spec (f k) (f k')) as [E|_]; [|exact IH].
    apply Hinj in E. contradiction.
Qed.

Lemma tagged_map (sfx : string) (raw : dict V) :
  dict_wf raw ->
  tagged sfx raw = map (fun kv => ((fst kv ++ sfx)%string, snd kv)) raw.
Proof.
  intros Hwf. unfold tagged.
  apply (@dict_comprehension_map V (fun name => name ++ sfx)%string);
    [|exact Hwf].
  intros a b. apply append_suffix_inj.
Qed.

Lemma tagged_get (sfx k : string) (raw : dict V) :
  dict_wf raw -> dict_get (k ++ sfx)%string (tagged sfx raw) = dict_get k raw.
Proof.
  intros Hwf. rewrite (tagged_map sfx Hwf).
  apply (dict_get_map_keys (fun name => name ++ sfx)%string).
  intros a b. apply append_suffix_inj.
Qed.

Lemma tagged_mem_suffix (sfx key : string) (raw : dict V) :
  dict_wf raw -> dict_mem key (tagged sfx raw) = true ->
  exists k, key = (k ++ sfx)%string.
Proof.
  intros Hwf Hm. rewrite (tagged_map sfx Hwf) in Hm.
  apply dict_mem_true_iff in Hm. unfold keys in Hm. rewrite map_map in Hm.
  apply in_map_iff in Hm. destruct Hm as ([k a] & E & _). simpl in E.
  exists k. now symmetry.
Qed.

Lemma column_tagged (sfx k : string) (raws : list (dict V)) :
  Forall dict_wf raws ->
  column (k ++ sfx)%string (map (tagged sfx) raws) = column k raws /\
  existsb (dict_mem (k ++ sfx)%string) (map (tagged sfx) raws)
  = existsb (dict_mem k) raws.
Proof.
  induction 1 as [|raw raws Hwf _ [IHc IHe]]; [split; reflexivity|].
  unfold column in *. simpl. unfold dict_mem at 1 3.
  rewrite (tagged_get sfx k Hwf), IHc, IHe. split; reflexivity.
Qed.

(** The history a non-empty sequence of well-formed reports gives. *)
Lemma history_of_reports (sfx : string) (raws : list (dict V)) :
  raws <> [] -> Forall dict_wf raws ->
  history_of sfx raws (map (tagged sfx) raws)
             (if (List.length (map (tagged sfx) raws) =? 0)%nat
              then Raised (ValueError "No values stored yet.")
              else _unpack_list_dicts (map (tagged sfx) raws)).
Proof.
  intros Hne Hwf. split; [reflexivity|].
  assert (Hwf' : Forall dict_wf (map (tagged sfx) raws)).
  { apply Forall_forall. intros d Hd. apply in_map_iff in Hd.
    destruct Hd as (raw & <- & _). apply dict_comprehension_wf. }
  assert (Hne' : map (tagged sfx) raws <> []) by (destruct raws; [congruence | discriminate]).
  destruct (results_table Hne' Hwf') as (t & E & G & _).
  exists t. split; [exact E|]. split.
  - intros k. rewrite G.
    destruct (column_tagged sfx k Hwf) as [-> ->]. reflexivity.
  - intros key Hm. unfold dict_mem in Hm. rewrite G in Hm.
    destruct (existsb (dict_mem key) (map (tagged sfx) raws)) eqn:Ex;
      [|discriminate].
    apply existsb_exists in Ex. destruct Ex as (d & Hd & Hk).
    apply in_map_iff in Hd. destruct Hd as (raw & <- & Hraw).
    rewrite Forall_forall in Hwf. exact (tagged_mem_suffix sfx key (Hwf raw Hraw) Hk).
Qed.

Section Contents.

Variable hook : Z -> option (dict V) -> M unit.
Variable F : Z.
Hypothesis F_nonzero : F <> 0.
Variable seen : EvaluateDataset -> Z.
Variable results : EvaluateDataset -> list (dict V).
Variable Inv : EvaluateDataset -> Prop.

(** The entry a cycle stores when it makes the [w]-th call of the model,
    and the calls that are known to succeed. *)
Variable entry : nat -> dict V.
Variable succeeds : nat -> Prop.

Hypothesis hook_step_entry :
  forall b l self w, Inv self ->
    (seen self mod F = 0 -> succeeds w) ->
    exists self',
      Inv self' /\ seen self' = seen self + 1 /\
      if seen self mod F =? 0
      then hook b l self w = (Returned tt, self', S w) /\
           results self' = results self ++ [entry w]
      else hook b l self w = (Returned tt, self', w) /\
           results self' = results self.

Lemma run_hook_contents (args : list (Z * option (dict V))) self0 w0 :
  Inv self0 -> seen self0 = 0 -> results self0 = [] ->
  (forall i : nat,
      Z.of_nat i < cycles (Z.abs F) (List.length args) ->
      succeeds (w0 + i)%nat) ->
  exists n : nat,
    Z.of_nat n = cycles (Z.abs F) (List.length args) /\
    run_hook hook args self0 w0
    = (Returned tt, self_of (run_hook hook args self0 w0), (w0 + n)%nat) /\
    Inv (self_of (run_hook hook args self0 w0)) /\
    seen (self_of (run_hook hook args self0 w0)) = Z.of_nat (List.length args) /\
    results (self_of (run_hook hook args self0 w0)) = map entry (seq w0 n).
Proof.
  intros HI Hs Hr. induction args as [|[b l] args IH] using rev_ind; intros Hok.
  - exists 0%nat. simpl. unfold ret, self_of. simpl.
    rewrite Nat.add_0_r. repeat split; assumption.
  - rewrite length_app in Hok. simpl List.length in Hok.
    replace (List.length args + 1)%nat with (S (List.length args)) in Hok by lia.
    rewrite cycles_S in Hok by lia.
    rewrite mod_abs_eqb in Hok by exact F_nonzero.
    destruct IH as (n & Hn & Erun & HI1 & Hs1 & Hr1).
    { intros i Hi. apply Hok.
      destruct (Z.of_nat (List.length args) mod F =? 0); lia. }
    rewrite run_hook_app. rewrite Erun.
    set (s1 := self_of (run_hook hook args self0 w0)) in *.
    rewrite run_hook_one.
    destruct (@hook_step_entry b l s1 (w0 + n)%nat HI1)
      as (s2 & HI2 & Hs2 & Hcase).
    { intros Hm. apply Hok. rewrite <- Hs1, Hm. simpl. lia. }
    rewrite length_app. simpl List.length.
    replace (List.length args + 1)%nat with (S (List.length args)) by lia.
    rewrite cycles_S by lia. rewrite mod_abs_eqb by exact F_nonzero.
    rewrite <- Hs1.
    destruct (seen s1 mod F =? 0).
    + destruct Hcase as (-> & Hd). exists (S n). unfold self_of. cbn [fst snd].
      split; [lia|]. split; [f_equal; lia|]. split; [exact HI2|].
      split; [lia|]. rewrite Hd, Hr1, seq_S, map_app. reflexivity.
    + destruct Hcase as (-> & Hd). exists n. unfold self_of. cbn [fst snd].
      split; [lia|]. split; [reflexivity|]. split; [exact HI2|].
      split; [lia|]. rewrite Hd. exact Hr1.
Qed.

End Contents.

Lemma raw_at_returned (ds : Dataset) (n : nat) (raw : dict V) :
  model_evaluate ds n = Returned raw -> raw_at ds n = raw.
Proof. intros H. unfold raw_at. now rewrite H. Qed.

Lemma batch_step_entry (F : Z) (ds : Dataset) (sfx : string) :
  F <> 0 ->
  forall b l self w,
    freq_batches self = Some F /\ dataset self = ds /\ append self = sfx ->
    (batches_seen self mod F = 0 ->
     exists raw, model_evaluate ds w = Returned raw) ->
    exists self',
      (freq_batches self' = Some F /\ dataset self' = ds /\ append self' = sfx) /\
      batches_seen self' = batches_seen self + 1 /\
      if batches_seen self mod F =? 0
      then on_train_batch_end b l self w = (Returned tt, self', S w) /\
           _results_batches self'
           = _results_batches self ++ [tagged sfx (raw_at ds w)]
      else on_train_batch_end b l self w = (Returned tt, self', w) /\
           _results_batches self' = _results_batches self.
Proof.
  intros HF b l self w (Hf & Hds & Hsfx) Hok.
  destruct (Z.eqb_spec (batches_seen self mod F) 0) as [Hm|Hm].
  - destruct (Hok Hm) as (raw & Hraw).
    rewrite (@raw_at_returned ds w raw Hraw). rewrite <- Hds in Hraw.
    pose proof (@on_train_batch_end_fires b l self w F raw Hf HF Hm Hraw)
      as Hfire.
    eexists. split; [|split; [|split; [exact Hfire|]]].
    + simpl. auto.
    + reflexivity.
    + simpl. unfold tagged. now rewrite Hsfx.
  - exists (incr_batches_seen self). repeat split; try assumption.
    exact (@on_train_batch_end_skips b l self w F Hf HF Hm).
Qed.

Lemma epoch_step_entry (F : Z) (ds : Dataset) (sfx : string) :
  F <> 0 ->
  forall b l self w,
    freq_epochs self = Some F /\ dataset self = ds /\ append self = sfx ->
    (epochs_seen self mod F = 0 ->
     exists raw, model_evaluate ds w = Returned raw) ->
    exists self',
      (freq_epochs self' = Some F /\ dataset self' = ds /\ append self' = sfx) /\
      epochs_seen self' = epochs_seen self + 1 /\
      if epochs_seen self mod F =? 0
      then on_epoch_end b l self w = (Returned tt, self', S w) /\
           _results_epochs self'
           = _results_epochs self ++ [tagged sfx (raw_at ds w)]
      else on_epoch_end b l self w = (Returned tt, self', w) /\
           _results_epochs self' = _results_epochs self.
Proof.
  intros HF b l self w (Hf & Hds & Hsfx) Hok.
  destruct (Z.eqb_spec (epochs_seen self mod F) 0) as [Hm|Hm].
  - destruct (Hok Hm) as (raw & Hraw).
    rewrite (@raw_at_returned ds w raw Hraw). rewrite <- Hds in Hraw.
    pose proof (@on_epoch_end_fires b l self w F raw Hf HF Hm Hraw) as Hfire.
    eexists. split; [|split; [|split; [exact Hfire|]]].
    + simpl. auto.
    + reflexivity.
    + simpl. unfold tagged. now rewrite Hsfx.
  - exists (incr_epochs_seen self). repeat split; try assumption.
    exact (@on_epoch_end_skips b l self w F Hf HF Hm).
Qed.

(** What a run on the batch axis leaves, from the object [__init__]
    returns, when the calls it makes succeed. *)
Lemma run_batch_contents (F : Z) (ds : Dataset) (other : option Z)
      (sfx : string) (args : list (Z * option (dict V))) (w0 : World) :
  F <> 0 ->
  (forall i : nat,
      Z.of_nat i < cycles (Z.abs F) (List.length args) ->
      exists raw, model_evaluate ds (w0 + i)%nat = Returned raw) ->
  let self0 := {| dataset := if isinstance_tf_Dataset ds then ds
                             else _convert_to_dataset ds;
                  freq_epochs := other; freq_batches := Some F; append := sfx;
                  batches_seen := 0; epochs_seen := 0;
                  _results_batches := []; _results_epochs := [] |} in
  let final := run_hook on_train_batch_end args self0 w0 in
  exists n : nat,
    Z.of_nat n = cycles (Z.abs F) (List.length args) /\
    final = (Returned tt, self_of final, (w0 + n)%nat) /\
    (freq_batches (self_of final) = Some F /\ dataset (self_of final) = ds /\
     append (self_of final) = sfx) /\
    batches_seen (self_of final) = Z.of_nat (List.length args) /\
    _results_batches (self_of final)
    = map (fun w => tagged sfx (raw_at ds w)) (seq w0 n).
Proof.
  intros HF Hok self0 final.
  apply (@run_hook_contents on_train_batch_end F HF batches_seen
           _results_batches
           (fun s => freq_batches s = Some F /\ dataset s = ds /\ append s = sfx)
           (fun w => tagged sfx (raw_at ds w))
           (fun w => exists raw, model_evaluate ds w = Returned raw)).
  - intros b l self w. now apply batch_step_entry.
  - simpl. split; [reflexivity|]. split; [apply init_dataset | reflexivity].
  - reflexivity.
  - reflexivity.
  - exact Hok.
Qed.

Lemma run_epoch_contents (F : Z) (ds : Dataset) (other : option Z)
      (sfx : string) (args : list (Z * option (dict V))) (w0 : World) :
  F <> 0 ->
  (forall i : nat,
      Z.of_nat i < cycles (Z.abs F) (List.length args) ->
      exists raw, model_evaluate ds (w0 + i)%nat = Returned raw) ->
  let self0 := {| dataset := if isinstance_tf_Dataset ds then ds
                             else _convert_to_dataset ds;
                  freq_epochs := Some F; freq_batches := other; append := sfx;
                  batches_seen := 0; epochs_seen := 0;
                  _results_batches := []; _results_epochs := [] |} in
  let final := run_hook on_epoch_end args self0 w0 in
  exists n : nat,
    Z.of_nat n = cycles (Z.abs F) (List.length args) /\
    final = (Returned tt, self_of final, (w0 + n)%nat) /\
    (freq_epochs (self_of final) = Some F /\ dataset (self_of final) = ds /\
     append (self_of final) = sfx) /\
    epochs_seen (self_of final) = Z.of_nat (List.length args) /\
    _results_epochs (self_of final)
    = map (fun w => tagged sfx (raw_at ds w)) (seq w0 n).
Proof.
  intros HF Hok self0 final.
  apply (@run_hook_contents on_epoch_end F HF epochs_seen
           _results_epochs
           (fun s => freq_epochs s = Some F /\ dataset s = ds /\ append s = sfx)
           (fun w => tagged sfx (raw_at ds w))
           (fun w => exists raw, model_evaluate ds w = Returned raw)).
  - intros b l self w. now apply epoch_step_entry.
  - simpl. split; [reflexivity|]. split; [apply init_dataset | reflexivity].
  - reflexivity.
  - reflexivity.
  - exact Hok.
Qed.

Lemma cycles_pos (F : Z) (B : nat) :
  0 < F -> B <> 0%nat -> 1 <= cycles F B.
Proof.
  intros HF HB. unfold cycles. destruct B as [|B]; [congruence|].
  simpl Nat.eqb. cbv iota.
  assert (0 <= (Z.of_nat (S B) - 1) / F) by (apply Z.div_pos; lia). lia.
Qed.

(** The accessors give the history of what the model reported.  On a
    freshly constructed evaluator with a non-zero frequency [F], and a
    model whose every evaluation returns a dictionary, a non-empty run of
    [B] notifications makes [n = floor((B-1)/|F|) + 1] calls of the model,
    the calls number [w0] to [w0 + n - 1]; the axis has stored the reports
    of these calls, in order, each with the suffix added to its keys; and
    the accessor returns a table in which each suffixed metric name maps to
    the values the successive calls reported for that metric, and no other
    key is present. *)
Theorem accessors_give_history :
  forall (F : Z) (ds : Dataset) (other : option Z) (sfx : string)
         (self_b self_e : EvaluateDataset)
         (args : list (Z * option (dict V))) (w0 : World),
    F <> 0 -> args <> [] ->
    (forall n, exists raw, model_evaluate ds n = Returned raw /\ dict_wf raw) ->
    __init__ ds other (Some F) sfx = Returned self_b ->
    __init__ ds (Some F) other sfx = Returned self_e ->
    exists n : nat,
      Z.of_nat n = cycles (Z.abs F) (List.length args) /\
      let raws := map (raw_at ds) (seq w0 n) in
      let final_b := run_hook on_train_batch_end args self_b w0 in
      let final_e := run_hook on_epoch_end args self_e w0 in
      calls_of final_b = (w0 + n)%nat /\
      calls_of final_e = (w0 + n)%nat /\
      history_of sfx raws (_results_batches (self_of final_b))
                 (results_batches (self_of final_b)) /\
      history_of sfx raws (_results_epochs (self_of final_e))
                 (results_epochs (self_of final_e)).
Proof.
  intros F ds other sfx self_b self_e args w0 HF Hargs Hok Hb He.
  unfold __init__ in Hb, He. injection Hb as <-. injection He as <-.
  assert (Hraws : forall n, Forall dict_wf (map (raw_at ds) (seq w0 n))).
  { intros n. apply Forall_forall. intros d Hd. apply in_map_iff in Hd.
    destruct Hd as (i & <- & _). destruct (Hok i) as (raw & Hraw & Hwf).
    now rewrite (@raw_at_returned ds i raw Hraw). }
  assert (Hpos : forall n : nat,
             Z.of_nat n = cycles (Z.abs F) (List.length args) ->
             map (raw_at ds) (seq w0 n) <> []).
  { intros n Hn.
    assert (1 <= cycles (Z.abs F) (List.length args)).
    { apply cycles_pos; [lia|]. destruct args; [congruence | discriminate]. }
    destruct n; [lia | discriminate]. }
  assert (Hsucc : forall i : nat,
             Z.of_nat i < cycles (Z.abs F) (List.length args) ->
             exists raw, model_evaluate ds (w0 + i)%nat = Returned raw).
  { intros i _. destruct (Hok (w0 + i)%nat) as (raw & Hraw & _). now exists raw. }
  destruct (run_batch_contents other sfx args w0 HF Hsucc)
    as (n & Hn & Erun & _ & _ & Hres).
  destruct (run_epoch_contents other sfx args w0 HF Hsucc)
    as (n' & Hn' & Erun' & _ & _ & Hres').
  assert (n' = n) by lia. subst n'.
  exists n. split; [exact Hn|]. cbv zeta.
  split; [rewrite Erun; reflexivity|]. split; [rewrite Erun'; reflexivity|].
  unfold results_batches, results_epochs.
  rewrite Hres, Hres', <- !map_map with (f := raw_at ds) (g := tagged sfx).
  split; apply history_of_reports; auto.
Qed.

Lemma cycles_multiple (G : Z) (k : nat) :
  0 < G -> cycles G (Z.to_nat (Z.of_nat k * G)) = Z.of_nat k.
Proof.
  intros HG. unfold cycles. destruct k as [|k].
  - reflexivity.
  - assert (Hpos : 0 < Z.of_nat (S k) * G) by lia.
    destruct (Z.to_nat (Z.of_nat (S k) * G)) as [|m] eqn:E; [lia|].
    simpl Nat.eqb. cbv iota. rewrite <- E, Z2Nat.id by lia.
    assert (Hq : (Z.of_nat (S k) * G - 1) / G = Z.of_nat k).
    { symmetry. apply Z.div_unique with (r := G - 1); lia. }
    lia.
Qed.

(** A failed evaluation ends the run and keeps what was stored before it.
    On a freshly constructed evaluator with a non-zero frequency [F], if
    the calls of the model number [w0] to [w0 + k - 1] succeed and the
    call number [w0 + k] fails, a run that is long enough to reach the
    cycle of index [k] raises that failure from the notification of index
    [k * |F|]: the counter is left at [k * |F|], the [k] entries of the
    cycles that succeeded are stored, in order, and the model has been
    called [k + 1] times. *)
Theorem failure_keeps_earlier_entries :
  forall (F : Z) (ds : Dataset) (other : option Z) (sfx : string)
         (self_b self_e : EvaluateDataset)
         (args : list (Z * option (dict V))) (w0 : World) (k : nat) (e : exn),
    F <> 0 ->
    Z.of_nat k * Z.abs F < Z.of_nat (List.length args) ->
    (forall i : nat, (i < k)%nat ->
                     exists raw, model_evaluate ds (w0 + i)%nat = Returned raw) ->
    model_evaluate ds (w0 + k)%nat = Raised e ->
    __init__ ds other (Some F) sfx = Returned self_b ->
    __init__ ds (Some F) other sfx = Returned self_e ->
    let final_b := run_hook on_train_batch_end args self_b w0 in
    let final_e := run_hook on_epoch_end args self_e w0 in
    (result_of final_b = Raised e /\
     calls_of final_b = S (w0 + k) /\
     batches_seen (self_of final_b) = Z.of_nat k * Z.abs F /\
     _results_batches (self_of final_b)
     = map (fun w => tagged sfx (raw_at ds w)) (seq w0 k)) /\
    (result_of final_e = Raised e /\
     calls_of final_e = S (w0 + k) /\
     epochs_seen (self_of final_e) = Z.of_nat k * Z.abs F /\
     _results_epochs (self_of final_e)
     = map (fun w => tagged sfx (raw_at ds w)) (seq w0 k)).
Proof.
  intros F ds other sfx self_b self_e args w0 k e HF Hlong Hok Hfail Hb He.
  unfold __init__ in Hb, He. injection Hb as <-. injection He as <-.
  set (m := Z.to_nat (Z.of_nat k * Z.abs F)).
  assert (Hm : (m < List.length args)%nat) by (unfold m; lia).
  assert (Hlen : List.length (firstn m args) = m)
    by (rewrite length_firstn; lia).
  assert (Hcyc : cycles (Z.abs F) m = Z.of_nat k)
    by (apply cycles_multiple; lia).
  assert (Hsplit : exists b l rest,
             args = firstn m args ++ (b, l) :: rest).
  { destruct (skipn m args) as [|[b l] rest] eqn:E.
    - apply (f_equal (@List.length _)) in E. rewrite length_skipn in E.
      simpl in E. lia.
    - exists b, l, rest. rewrite <- E. symmetry. apply firstn_skipn. }
  destruct Hsplit as (b & l & rest & Hargs).
  assert (Hsucc : forall i : nat,
             Z.of_nat i < cycles (Z.abs F) (List.length (firstn m args)) ->
             exists raw, model_evaluate ds (w0 + i)%nat = Returned raw).
  { intros i Hi. rewrite Hlen, Hcyc in Hi. apply Hok. lia. }
  assert (Hdiv : (Z.of_nat m) mod F = 0).
  { unfold m. rewrite Z2Nat.id by lia. apply Z.mod_divide; [exact HF|].
    apply Z.divide_mul_r. apply Z.divide_abs_r. apply Z.divide_refl. }
  cbv zeta. split.
  - destruct (run_batch_contents other sfx (firstn m args) w0 HF Hsucc)
      as (n & Hn & Erun & (Hf & Hds & Hsfx) & Hseen & Hres).
    rewrite Hlen, Hcyc in Hn. assert (n = k) by lia. subst n.
    rewrite Hlen in Hseen.
    rewrite Hargs, run_hook_app, Erun.
    set (s1 := self_of (run_hook on_train_batch_end (firstn m args) _ w0)) in *.
    rewrite <- Hds in Hfail. rewrite <- Hseen in Hdiv.
    assert (Estep : run_hook on_train_batch_end ((b, l) :: rest) s1 (w0 + k)%nat
                    = (Raised e, s1, S (w0 + k))).
    { cbn [run_hook]. unfold bind.
      now rewrite (@on_train_batch_end_aborts b l s1 (w0 + k)%nat F e Hf HF Hdiv Hfail). }
    rewrite Estep. project. repeat split; try assumption.
    rewrite Hseen. unfold m. lia.
  - destruct (run_epoch_contents other sfx (firstn m args) w0 HF Hsucc)
      as (n & Hn & Erun & (Hf & Hds & Hsfx) & Hseen & Hres).
    rewrite Hlen, Hcyc in Hn. assert (n = k) by lia. subst n.
    rewrite Hlen in Hseen.
    rewrite Hargs, run_hook_app, Erun.
    set (s1 := self_of (run_hook on_epoch_end (firstn m args) _ w0)) in *.
    rewrite <- Hds in Hfail. rewrite <- Hseen in Hdiv.
    assert (Estep : run_hook on_epoch_end ((b, l) :: rest) s1 (w0 + k)%nat
                    = (Raised e, s1, S (w0 + k))).
    { cbn [run_hook]. unfold bind.
      now rewrite (@on_epoch_end_aborts b l s1 (w0 + k)%nat F e Hf HF Hdiv Hfail). }
    rewrite Estep. project. repeat split; try assumption.
    rewrite Hseen. unfold m. lia.
Qed.

Lemma deliver_keeps_frequencies (n : notification) self w :
  freq_batches (self_of (deliver n self w)) = freq_batches self /\
  freq_epochs (self_of (deliver n self w)) = freq_epochs self.
Proof.
  destruct (deliver_grown n self w) as (ab & ae & G & _).
  destruct G as (_ & Hfe & Hfb & _). split; assumption.
Qed.

(** The notifications of a disabled axis drop out of a run: delivered
    among those of the other axis, in any number and at any place, they
    change neither the outcome of the run, nor the object it leaves, nor
    the calls of the model. *)
Theorem disabled_axis_drops_out :
  forall (ns : list notification) (self : EvaluateDataset) (w : World),
    (freq_epochs self = None ->
     run ns self w = run (filter is_batch_end ns) self w) /\
    (freq_batches self = None ->
     run ns self w = run (filter is_epoch_end ns) self w).
Proof.
  induction ns as [|n ns IH]; intros self w; [split; reflexivity|].
  pose proof (deliver_keeps_frequencies n self w) as [Kb Ke].
  split; intros Hnone.
  - destruct n as [b l|b l]; simpl filter.
    + simpl. unfold bind. simpl deliver in Ke.
      destruct (on_train_batch_end b l self w) as [[[u|e] s1] w1];
        [|reflexivity].
      unfold self_of in Ke. simpl in Ke.
      apply (proj1 (IH s1 w1)). now rewrite Ke.
    + simpl. unfold bind. rewrite (@on_epoch_end_disabled b l self w Hnone).
      apply (proj1 (IH self w)). exact Hnone.
  - destruct n as [b l|b l]; simpl filter.
    + simpl. unfold bind. rewrite (@on_train_batch_end_disabled b l self w Hnone).
      apply (proj2 (IH self w)). exact Hnone.
    + simpl. unfold bind. simpl deliver in Kb.
      destruct (on_epoch_end b l self w) as [[[u|e] s1] w1];
        [|reflexivity].
      unfold self_of in Kb. simpl in Kb.
      apply (proj2 (IH s1 w1)). now rewrite Kb.
Qed.

End Evaluation.

(** ** The notebook's scenario *)

(** C8: an evaluator built with [freq_batches = 5] and
    [append = "_TID2013"], on a model whose successive evaluations report
    [{"loss": v0}], [{"loss": v1}], [{"loss": v2}], [{"loss": v3}], receives
    10 batch-end notifications.  The run returns after exactly 2 calls of
    the model, made by the notifications of index 0 and 5 (the number of
    calls made after 0, 1, ..., 10 notifications is 0 1 1 1 1 1 2 2 2 2 2),
    and [results_batches] is then [{"loss_TID2013": [v0, v1]}]. *)
Theorem scenario_TID2013 :
  forall (D A : Type) (isinstance_tf_Dataset : D -> bool) (ds : D)
         (v0 v1 v2 v3 : A) (args : list (Z * option (dict A))),
    List.length args = 10%nat ->
    exists self0,
      __init__ A isinstance_tf_Dataset ds None (Some 5) "_TID2013"
      = Returned self0 /\
      let hook := on_train_batch_end (scripted_model [v0; v1; v2; v3]) in
      let final := run_hook hook args self0 0%nat in
      result_of final = Returned tt /\
      calls_of final = 2%nat /\
      map (fun i => calls_of (run_hook hook (firstn i args) self0 0%nat))
          (seq 0 11)
      = [0; 1; 1; 1; 1; 1; 2; 2; 2; 2; 2]%nat /\
      batches_seen (self_of final) = 10 /\
      _results_batches (self_of final)
      = [[("loss_TID2013", v0)]; [("loss_TID2013", v1)]] /\
      results_batches (self_of final) = Returned [("loss_TID2013", [v0; v1])].
Proof.
  intros D A isinst ds v0 v1 v2 v3 args Hlen.
  do 10 (destruct args as [|[? ?] args]; [discriminate Hlen|]).
  destruct args; [|discriminate Hlen].
  eexists. split; [reflexivity|].
  cbv zeta. repeat split.
Qed.

(** ** The skip connection *)

(** With no [skip_path] given, the layer merges what the main path makes
    of the input with the input itself, the main path first.  The merge is
    [Add] only when [how] is exactly ["add"]; any other string selects
    [Concatenate].  So, for merge layers that behave on sizes as Keras's
    do, the output of an ["add"] connection has the size of the input
    (when the main path keeps it), and the output of any other connection
    has the size of the main path's output plus the size of the input. *)
Theorem skip_connection_merges_input :
  forall (Tensor : Type) (dim : Tensor -> nat)
         (Add Concatenate : list Tensor -> outcome Tensor)
         (main : Tensor -> outcome Tensor) (how : string) (x m : Tensor),
    (forall a b, exists c,
          Concatenate [a; b] = Returned c /\ dim c = (dim a + dim b)%nat) ->
    (forall a b, dim a = dim b ->
                 exists c, Add [a; b] = Returned c /\ dim c = dim a) ->
    main x = Returned m ->
    let layer := SkipConnection_init Add Concatenate main None how in
    SkipConnection_call layer x
    = (if String.eqb how "add" then Add [m; x] else Concatenate [m; x]) /\
    (how = "add" -> dim m = dim x ->
     exists y, SkipConnection_call layer x = Returned y /\ dim y = dim x) /\
    (how <> "add" ->
     exists y, SkipConnection_call layer x = Returned y /\
               dim y = (dim m + dim x)%nat).
Proof.
  intros Tensor dim Add Concatenate main how x m HCat HAdd Hmain layer.
  assert (Hcall : SkipConnection_call layer x
                  = (if String.eqb how "add" then Add [m; x]
                     else Concatenate [m; x])).
  { unfold SkipConnection_call, layer, SkipConnection_init. simpl.
    rewrite Hmain. simpl. destruct (String.eqb how "add"); reflexivity. }
  split; [exact Hcall|]. split.
  - intros -> Hdim. rewrite Hcall. simpl.
    destruct (HAdd m x Hdim) as (c & Ec & Hc). exists c. split; [exact Ec | lia].
  - intros Hne. rewrite Hcall. apply String.eqb_neq in Hne. rewrite Hne.
    apply HCat.
Qed.

(** ** The theorems at concrete inputs *)

(** A small table with differing key sets, computed. *)
Example unpack_ragged_results :
  _unpack_list_dicts ragged_results
  = Returned [("loss", [1; 2]); ("acc", [3])].
Proof. reflexivity. Qed.

(** C2, as stated, fails: construction with a batch frequency of 0 or of
    -1 returns an evaluator, and raises nothing. *)
Lemma init_accepts_invalid_frequencies :
  (exists self,
      __init__ Z (fun _ : unit => true) tt None (Some 0) "" = Returned self) /\
  (exists self,
      __init__ Z (fun _ : unit => true) tt None (Some (-1)) "" = Returned self) /\
  (forall e,
      __init__ Z (fun _ : unit => true) tt None (Some 0) "" <> Raised e) /\
  (forall e,
      __init__ Z (fun _ : unit => true) tt None (Some (-1)) "" <> Raised e).
Proof.
  split; [eexists; reflexivity|]. split; [eexists; reflexivity|].
  split; intros e; discriminate.
Qed.

(** C3, as stated, fails: a batch-end notification delivered to an
    evaluator whose batch axis is disabled leaves [batches_seen] at its
    prior value, not at that value plus 1. *)
Lemma counter_stays_when_axis_disabled :
  let self := @mkEvaluateDataset Z unit tt (Some 1) None "" 0 0 [] [] in
  let after := self_of (on_train_batch_end steady_model 0 None self 0%nat) in
  batches_seen after = 0 /\ batches_seen after <> batches_seen self + 1.
Proof.
  cbv zeta. split; [reflexivity|]. vm_compute. discriminate.
Qed.

(** The schedule on three batch-end notifications with [freq_batches = 2]. *)
Lemma cycles_fire_every_F_witness :
  let self := @mkEvaluateDataset Z unit tt None (Some 2) "_val" 0 0 [] [] in
  let args : list (Z * option (dict Z)) := [(0, None); (1, None); (2, None)] in
  0 < 2 /\
  (forall n, exists raw, steady_model tt n = Returned raw) /\
  fires_every 2 (on_train_batch_end steady_model)
              (batches_seen (Dataset := unit)) (_results_batches (Dataset := unit))
              self 0%nat args.
Proof.
  cbv zeta. split; [lia|]. split; [intros n; eexists; reflexivity|].
  refine (proj1 (@cycles_fire_every_F Z unit (fun _ => true) steady_model
                   2 tt None "_val" _ _ _ 0%nat _ _ eq_refl eq_refl)).
  - lia.
  - intros n; eexists; reflexivity.
Defined.

(** A notification that fires no cycle ([1 mod 2 <> 0]) still advances the
    counter. *)
Lemma counters_advance_by_one_witness :
  let self := @mkEvaluateDataset Z unit tt None (Some 2) "_val" 1 0 [] [] in
  let rb := on_train_batch_end steady_model 4 None self 0%nat in
  freq_batches self <> None /\
  result_of rb = Returned tt /\
  batches_seen (self_of rb) = batches_seen self + 1.
Proof.
  cbv zeta. split; [discriminate|]. split; [reflexivity|].
  refine (proj1 (proj2 (proj2
            (@counters_advance_by_one Z unit (fun _ => true) steady_model
               4 None _ 0%nat))) _ _).
  - discriminate.
  - reflexivity.
Defined.

(** A batch-end notification with [freq_batches = None]. *)
Lemma disabled_axis_is_noop_witness :
  let self := @mkEvaluateDataset Z unit tt (Some 1) None "" 3 4 [] [] in
  freq_batches self = None /\
  on_train_batch_end steady_model 0 None self 5%nat = (Returned tt, self, 5%nat).
Proof.
  cbv zeta. split; [reflexivity|].
  refine (proj1 (@disabled_axis_is_noop Z unit steady_model 0 None _ 5%nat) _).
  reflexivity.
Defined.

(** One cycle with [append = "_val"]. *)
Lemma evaluation_cycle_rewrites_keys_witness :
  let self := @mkEvaluateDataset Z unit tt None (Some 2) "_val" 0 0 [] [] in
  steady_model (dataset self) 0%nat = Returned [("loss", 7)] /\
  dict_wf [("loss", 7)] /\
  evaluate steady_model self 0%nat = (Returned [("loss_val", 7)], self, 1%nat).
Proof.
  assert (Hwf : dict_wf [("loss", 7)]).
  { unfold dict_wf. simpl. constructor; [simpl; tauto | constructor]. }
  cbv zeta. split; [reflexivity|]. split; [exact Hwf|].
  refine (proj1 (@evaluation_cycle_rewrites_keys Z unit steady_model
                   _ 0%nat [("loss", 7)] _ Hwf)).
  reflexivity.
Defined.

(** The table of two stored cycles. *)
Lemma results_accessors_witness :
  let self :=
    @mkEvaluateDataset Z unit tt None (Some 2) "" 3 0
                       [[("loss", 1)]; [("loss", 2)]] [] in
  _results_batches self <> [] /\
  Forall dict_wf (_results_batches self) /\
  exists t,
    results_batches self = Returned t /\
    (forall k, dict_get k t =
               if existsb (dict_mem k) (_results_batches self)
               then Some (column k (_results_batches self)) else None) /\
    (same_key_set (_results_batches self) ->
     forall k vs, dict_get k t = Some vs ->
                  List.length vs = List.length (_results_batches self)).
Proof.
  assert (Hwf : Forall (dict_wf (A := Z)) [[("loss", 1)]; [("loss", 2)]]).
  { repeat constructor; simpl; tauto. }
  cbv zeta. split; [discriminate|]. split; [exact Hwf|].
  refine (proj1 (proj2 (proj2
            (@results_accessors Z unit
               (@mkEvaluateDataset Z unit tt None (Some 2) "" 3 0
                  [[("loss", 1)]; [("loss", 2)]] [])))) _ Hwf).
  discriminate.
Defined.

(** A firing notification ([6 mod 3 = 0]) on a model that fails. *)
Lemma evaluation_failure_propagates_witness :
  let self := @mkEvaluateDataset Z unit tt None (Some 3) "" 6 0 [] [] in
  broken_model (dataset self) 2%nat = Raised (OtherError "EvaluationFailure") /\
  on_train_batch_end broken_model 6 None self 2%nat
  = (Raised (OtherError "EvaluationFailure"), self, 3%nat).
Proof.
  cbv zeta. split; [reflexivity|].
  refine (proj1 (@evaluation_failure_propagates Z unit broken_model 6 None
                   _ 2%nat _ _) 3 _ _ _).
  - reflexivity.
  - reflexivity.
  - discriminate.
  - reflexivity.
Defined.

(** The scenario with the values of the notebook, kept as written. *)
Lemma scenario_TID2013_witness :
  let args : list (Z * option (dict string)) :=
    map (fun i => (i, None)) [0; 1; 2; 3; 4; 5; 6; 7; 8; 9] in
  List.length args = 10%nat /\
  exists self0,
    __init__ string (fun _ : unit => true) tt None (Some 5) "_TID2013"
    = Returned self0 /\
    let hook :=
      on_train_batch_end (scripted_model ["-0.85"; "-0.90"; "-0.89"; "-0.91"]) in
    let final := run_hook hook args self0 0%nat in
    result_of final = Returned tt /\
    calls_of final = 2%nat /\
    map (fun i => calls_of (run_hook hook (firstn i args) self0 0%nat))
        (seq 0 11)
    = [0; 1; 1; 1; 1; 1; 2; 2; 2; 2; 2]%nat /\
    batches_seen (self_of final) = 10 /\
    _results_batches (self_of final)
    = [[("loss_TID2013", "-0.85")]; [("loss_TID2013", "-0.90")]] /\
    results_batches (self_of final)
    = Returned [("loss_TID2013", ["-0.85"; "-0.90"])].
Proof.
  cbv zeta. split; [reflexivity|].
  refine (@scenario_TID2013 unit string (fun _ => true) tt
            "-0.85" "-0.90" "-0.89" "-0.91" _ _).
  reflexivity.
Defined.

(** Two runs of two notifications with unrelated ordinals and logs. *)
Lemma hooks_ignore_ordinal_and_logs_witness :
  let self := @mkEvaluateDataset Z unit tt (Some 1) (Some 2) "" 0 0 [] [] in
  let args1 : list (Z * option (dict Z)) := [(0, None); (1, None)] in
  let args2 : list (Z * option (dict Z)) :=
    [(7, Some [("loss", 5)]); (-3, Some [])] in
  List.length args1 = List.length args2 /\
  run_hook (on_train_batch_end steady_model) args1 self 0%nat
  = run_hook (on_train_batch_end steady_model) args2 self 0%nat.
Proof.
  cbv zeta. split; [reflexivity|].
  refine (proj1 (proj2 (proj2
            (@hooks_ignore_ordinal_and_logs Z unit steady_model 0 0 None None
               _ 0%nat)) _ _ _)).
  reflexivity.
Defined.

(** The table of [ragged_results]: ["acc"] appears in the second cycle
    only. *)
Lemma unpack_list_dicts_ragged_witness :
  Forall dict_wf ragged_results /\
  exists t,
    _unpack_list_dicts ragged_results = Returned t /\
    (forall k, dict_get k t =
               if existsb (dict_mem k) ragged_results
               then Some (column k ragged_results) else None) /\
    (forall k, forallb (dict_mem k) ragged_results = true ->
               List.length (column k ragged_results) = List.length ragged_results) /\
    (forall k, existsb (fun d => negb (dict_mem k d)) ragged_results = true ->
               (List.length (column k ragged_results)
                < List.length ragged_results)%nat).
Proof.
  assert (Hwf : Forall dict_wf ragged_results).
  { unfold ragged_results, dict_wf.
    repeat constructor; simpl; intuition discriminate. }
  split; [exact Hwf|].
  exact (@unpack_list_dicts_ragged Z ragged_results Hwf).
Defined.

(** The table of two cycles with the same metric. *)
Lemma table_rows_aligned_witness :
  let ds : list (dict Z) := [[("loss", 1)]; [("loss", 2)]] in
  Forall dict_wf ds /\
  same_key_set ds /\
  exists t,
    _unpack_list_dicts ds = Returned t /\
    forall k vs i d,
      dict_get k t = Some vs -> nth_error ds i = Some d ->
      exists v, nth_error vs i = Some v /\ dict_get k d = Some v.
Proof.
  assert (Hwf : Forall (dict_wf (A := Z)) [[("loss", 1)]; [("loss", 2)]]).
  { repeat constructor; simpl; tauto. }
  assert (Hsame : same_key_set (A := Z) [[("loss", 1)]; [("loss", 2)]]).
  { intros d1 d2 k [<-|[<-|[]]] [<-|[<-|[]]]; unfold dict_mem; simpl;
      destruct (String.eqb k "loss"); reflexivity. }
  cbv zeta. split; [exact Hwf|]. split; [exact Hsame|].
  exact (@table_rows_aligned Z _ Hwf Hsame).
Defined.

(** One more cycle, with one more metric. *)
Lemma table_extends_witness :
  let ds1 : list (dict Z) := [[("loss", 1)]] in
  let ds2 : list (dict Z) := [[("loss", 2); ("acc", 3)]] in
  Forall dict_wf ds1 /\ Forall dict_wf ds2 /\
  exists t1 t2,
    _unpack_list_dicts ds1 = Returned t1 /\
    _unpack_list_dicts (ds1 ++ ds2) = Returned t2 /\
    (forall k vs, dict_get k t1 = Some vs ->
                  dict_get k t2 = Some (vs ++ column k ds2)) /\
    exists newer, keys t2 = keys t1 ++ newer.
Proof.
  assert (Hwf1 : Forall (dict_wf (A := Z)) [[("loss", 1)]]).
  { repeat constructor; simpl; tauto. }
  assert (Hwf2 : Forall (dict_wf (A := Z)) [[("loss", 2); ("acc", 3)]]).
  { repeat constructor; simpl; intuition discriminate. }
  cbv zeta. split; [exact Hwf1|]. split; [exact Hwf2|].
  exact (@table_extends Z _ _ Hwf1 Hwf2).
Defined.

(** The schedule of a frequency of [-2]. *)
Lemma nonzero_frequency_schedule_witness :
  let self := @mkEvaluateDataset Z unit tt None (Some (-2)) "_val" 0 0 [] [] in
  let args : list (Z * option (dict Z)) := [(0, None); (1, None); (2, None)] in
  -2 <> 0 /\
  fires_every (Z.abs (-2)) (on_train_batch_end steady_model)
              (batches_seen (Dataset := unit)) (_results_batches (Dataset := unit))
              self 0%nat args.
Proof.
  cbv zeta. split; [discriminate|].
  refine (proj1 (@nonzero_frequency_schedule Z unit (fun _ => true) steady_model
                   (-2) tt None "_val" _ _ _ 0%nat _ _ eq_refl eq_refl)).
  - discriminate.
  - intros n; eexists; reflexivity.
Defined.

(** A first evaluation that fails, tried again by the next notification. *)
Lemma failed_cycle_is_retried_witness :
  let self := @mkEvaluateDataset Z unit tt None (Some 3) "_val" 0 0 [] [] in
  let failed := on_train_batch_end flaky_model 0 None self 0%nat in
  result_of failed = Raised (OtherError "EvaluationFailure") /\
  on_train_batch_end flaky_model 1 None (self_of failed) (calls_of failed)
  = (Returned tt,
     incr_batches_seen
       (append_results_batches (tagged "_val" [("loss", 7)]) self),
     2%nat).
Proof.
  cbv zeta.
  refine (proj1 (@failed_cycle_is_retried Z unit flaky_model 0 1 None None
                   _ 0%nat _ _ _ _) 3 _ _ _).
  - reflexivity.
  - reflexivity.
  - reflexivity.
  - discriminate.
  - reflexivity.
Defined.

(** A state reached through a failing model. *)
Lemma reachable_states_consistent_witness :
  let self0 := @mkEvaluateDataset Z unit tt (Some 0) (Some (-3)) "" 0 0 [] [] in
  let ns := [BatchEnd 0 None; EpochEnd 0 None; BatchEnd 1 None] in
  __init__ Z (fun _ : unit => true) tt (Some 0) (Some (-3)) "" = Returned self0 /\
  consistent (self_of (run broken_model ns self0 0%nat)).
Proof.
  cbv zeta. split; [reflexivity|].
  refine (@reachable_states_consistent Z unit (fun _ => true) broken_model
            tt (Some 0) (Some (-3)) "" _ _ 0%nat _).
  reflexivity.
Defined.


(** The history of three notifications with [freq_batches = 2]. *)
Lemma accessors_give_history_witness :
  let self := @mkEvaluateDataset Z unit tt None (Some 2) "_val" 0 0 [] [] in
  let args : list (Z * option (dict Z)) := [(0, None); (1, None); (2, None)] in
  exists n : nat,
    Z.of_nat n = cycles (Z.abs 2) (List.length args) /\
    let raws := map (raw_at steady_model tt) (seq 0 n) in
    let final_b := run_hook (on_train_batch_end steady_model) args self 0%nat in
    calls_of final_b = (0 + n)%nat /\
    history_of "_val" raws (_results_batches (self_of final_b))
               (results_batches (self_of final_b)).
Proof.
  cbv zeta.
  assert (H2 : 2 <> 0) by discriminate.
  assert (Hargs : [(0, @None (dict Z)); (1, None); (2, None)] <> [])
    by discriminate.
  assert (Hok : forall n, exists raw,
               steady_model tt n = Returned raw /\ dict_wf raw).
  { intros n. eexists. split; [reflexivity|].
    unfold dict_wf. simpl. constructor; [simpl; tauto | constructor]. }
  destruct (@accessors_give_history Z unit (fun _ => true) steady_model
              2 tt None "_val" _ _ [(0, None); (1, None); (2, None)] 0%nat
              H2 Hargs Hok eq_refl eq_refl)
    as (n & Hn & Hb & _ & Hh & _).
  exists n. split; [exact Hn|]. split; [exact Hb | exact Hh].
Defined.

(** Two evaluations that succeed and a third that fails, with
    [freq_batches = 2] and five notifications. *)
Lemma failure_keeps_earlier_entries_witness :
  let self := @mkEvaluateDataset Z unit tt None (Some 2) "_val" 0 0 [] [] in
  let model := scripted_model (D := unit) [10; 20] in
  let args : list (Z * option (dict Z)) :=
    [(0, None); (1, None); (2, None); (3, None); (4, None)] in
  let final_b := run_hook (on_train_batch_end model) args self 0%nat in
  result_of final_b = Raised (OtherError "EvaluationFailure") /\
  calls_of final_b = 3%nat /\
  batches_seen (self_of final_b) = 4 /\
  _results_batches (self_of final_b)
  = map (fun w => tagged "_val" (raw_at model tt w)) (seq 0 2).
Proof.
  cbv zeta.
  refine (proj1 (@failure_keeps_earlier_entries Z unit (fun _ => true)
                   (scripted_model [10; 20]) 2 tt None "_val" _ _
                   [(0, None); (1, None); (2, None); (3, None); (4, None)]
                   0%nat 2 (OtherError "EvaluationFailure")
                   _ _ _ _ eq_refl eq_refl)).
  - discriminate.
  - simpl. lia.
  - intros i Hi. destruct i as [|[|i]]; [eexists; reflexivity .. | lia].
  - reflexivity.
Defined.

(** A concatenating connection around a doubling layer, on a vector of
    three numbers. *)
Lemma skip_connection_merges_input_witness :
  let main := fun x : list Z => Returned (map (Z.mul 2) x) in
  let layer := SkipConnection_init vector_Add vector_Concatenate main None "concat" in
  "concat" <> "add" /\
  exists y, SkipConnection_call layer [1; 2; 3] = Returned y /\
            List.length y = (3 + 3)%nat.
Proof.
  cbv zeta. split; [discriminate|].
  refine (proj2 (proj2 (@skip_connection_merges_input (list Z) (@List.length Z)
                          vector_Add vector_Concatenate
                          (fun x => Returned (map (Z.mul 2) x)) "concat"
                          [1; 2; 3] [2; 4; 6] _ _ eq_refl)) _).
  - intros a b. eexists. split; [reflexivity|].
    simpl. now rewrite app_nil_r, length_app.
  - intros a b Hab. unfold vector_Add.
    rewrite (proj2 (Nat.eqb_eq _ _) Hab). eexists. split; [reflexivity|].
    rewrite length_map, length_combine. lia.
  - discriminate.
Defined.

(** The notebook's run, two epochs of ten batches with the epoch axis
    disabled, is the run of its twenty batch-end notifications. *)
Lemma disabled_axis_drops_out_witness :
  let self := @mkEvaluateDataset string unit tt None (Some 5) "_TID2013" 0 0 [] [] in
  let model := scripted_model (D := unit) ["-0.85"; "-0.90"; "-0.89"; "-0.91"] in
  let epoch (e : Z) : list (notification string) :=
    map (fun i => BatchEnd i None) [0; 1; 2; 3; 4; 5; 6; 7; 8; 9]
    ++ [EpochEnd e None] in
  let ns := epoch 0 ++ epoch 1 in
  freq_epochs self = None /\
  run model ns self 0%nat = run model (filter (@is_batch_end string) ns) self 0%nat /\
  results_batches (self_of (run model ns self 0%nat))
  = Returned [("loss_TID2013", ["-0.85"; "-0.90"; "-0.89"; "-0.91"])].
Proof.
  cbv zeta. split; [reflexivity|]. split; [|reflexivity].
  refine (proj1 (@disabled_axis_drops_out string unit _ _ _ 0%nat) _).
  reflexivity.
Defined.
